(** * Vinyl-Store: the file-backed record store and its HTTP handlers

    A shallow embedding of the route handlers of the repository

      - [routes/create-post.js]      POST   /post
      - the delete-post route        DELETE /post/:id
      - [routes/profile-update.js]   PUT    /profile-update
      - [src/routes/get-post.ts]     GET    /post
      - [routes/login.js]            POST   /login

    and of the methods of the review and vinyl services of
    [src/reviews/reviews.service.ts] that await their calls one after
    the other.

    Every handler reads a whole JSON collection from a file, transforms
    it in memory and writes the whole collection back.  The handlers are
    written in callback style; the embedding keeps that shape: a handler
    is a tree of actions whose branches are the callbacks of the source,
    and a small interpreter plays the part of the Node event loop. *)

From Stdlib Require Import List String Bool Arith Lia PrimFloat.
Import ListNotations.
Local Open Scope string_scope.
Local Open Scope list_scope.

(* ================================================================== *)
(** * JavaScript values *)
(* ================================================================== *)

Module JS.

(** The values that flow through the handlers: what [JSON.parse] returns
    for a file or a request body, plus [undefined] (an absent property).
    Numbers are IEEE doubles.  An object keeps its properties in
    insertion order, which is the order [JSON.stringify] prints them in. *)
#[local] Set Warnings "-register-all".
Inductive value : Type :=
| VUndefined
| VNull
| VBool (b : bool)
| VNumber (x : float)
| VString (s : string)
| VArray (xs : list value)
| VObject (props : list (string * value)).

(** A record of a collection is a JSON object. *)
Definition record : Type := list (string * value).

(** [ToBoolean]: [undefined], [null], [false], [0], [-0], [NaN] and the
    empty string are falsy, everything else is truthy. *)
Definition truthy (v : value) : bool :=
  match v with
  | VUndefined | VNull => false
  | VBool b => b
  | VNumber x => negb (is_zero x || is_nan x)
  | VString s => negb (String.eqb s "")
  | VArray _ | VObject _ => true
  end.

(** [a === b].  Primitives compare by type and value; numbers compare as
    doubles ([NaN] differs from itself, [0] equals [-0]).  Arrays and
    objects compare by reference: in the handlers one operand always
    comes from the parsed file and the other from the request, so two
    of them are never the same reference. *)
Definition strict_eq (a b : value) : bool :=
  match a, b with
  | VUndefined, VUndefined => true
  | VNull, VNull => true
  | VBool x, VBool y => Bool.eqb x y
  | VNumber x, VNumber y => PrimFloat.eqb x y
  | VString x, VString y => String.eqb x y
  | _, _ => false
  end.

(** [a !== b] *)
Definition strict_neq (a b : value) : bool := negb (strict_eq a b).

(** [o.k] on an object: the value of the first property named [k],
    [undefined] when there is none. *)
Fixpoint get (o : record) (k : string) : value :=
  match o with
  | [] => VUndefined
  | (k', v) :: rest => if String.eqb k' k then v else get rest k
  end.

(** [o.k = v] on an object: overwrite the property in place when it
    exists, append it otherwise. *)
Fixpoint set (o : record) (k : string) (v : value) : record :=
  match o with
  | [] => [(k, v)]
  | (k', v') :: rest =>
      if String.eqb k' k then (k', v) :: rest else (k', v') :: set rest k v
  end.

Definition is_undefined (v : value) : bool :=
  match v with VUndefined => true | _ => false end.

(** ** JSON.stringify followed by JSON.parse

    A file is modelled by the value [JSON.parse] returns for its text, so
    writing [JSON.stringify(v)] stores [to_json v]: a property whose value
    is [undefined] is dropped, an [undefined] array element becomes
    [null], a non-finite number becomes [null] and [-0] is printed [0]. *)
Definition number_to_json (x : float) : value :=
  if is_finite x then
    (if is_zero x && get_sign x then VNumber zero else VNumber x)
  else VNull.

Fixpoint to_json (v : value) : value :=
  match v with
  | VUndefined => VUndefined
  | VNull => VNull
  | VBool b => VBool b
  | VNumber x => number_to_json x
  | VString s => VString s
  | VArray xs =>
      VArray (map (fun x => if is_undefined x then VNull else to_json x) xs)
  | VObject props =>
      VObject
        ((fix props_to_json (ps : list (string * value)) : list (string * value) :=
            match ps with
            | [] => []
            | (k, x) :: rest =>
                if is_undefined x then props_to_json rest
                else (k, to_json x) :: props_to_json rest
            end) props)
  end.

(** The same on a record, ... *)
Fixpoint record_to_json (o : record) : record :=
  match o with
  | [] => []
  | (k, x) :: rest =>
      if is_undefined x then record_to_json rest
      else (k, to_json x) :: record_to_json rest
  end.

(** ... and on a collection: [JSON.stringify(records, null, 2)]. *)
Definition JSON_stringify (rs : list record) : list record :=
  map record_to_json rs.

(** ** Conversions that the engine performs

    [Number::toString] and [StringToNumber] belong to the JavaScript
    engine, not to the repository; the development is parametric in
    them. *)
Record engine : Type := {
  number_to_string : float -> string;
  string_to_number : string -> float
}.

Section Conversions.
Variable E : engine.

(** Whether an object has an own property of that name, whatever its
    value. *)
Definition has_own (o : record) (k : string) : bool :=
  existsb (fun kv => String.eqb (fst kv) k) o.

(** [ToString], as a template literal applies it; [None] when it throws
    a [TypeError].  An object is printed by the [toString] it finds: the
    one of [Object.prototype], which gives [[object Object]], unless the
    object has its own property of that name.  Such a property holds
    data, never a function, so the conversion skips it, finds [valueOf]
    (which gives back the object) of no help either, and throws.  An
    array prints its elements separated by commas, [null] and
    [undefined] elements as the empty string, and throws when an element
    does. *)
Fixpoint to_string (v : value) : option string :=
  match v with
  | VUndefined => Some "undefined"
  | VNull => Some "null"
  | VBool true => Some "true"
  | VBool false => Some "false"
  | VNumber x => Some (number_to_string E x)
  | VString s => Some s
  | VArray xs =>
      (fix join (l : list value) : option string :=
         match l with
         | [] => Some ""
         | x :: rest =>
             match (match x with
                    | VUndefined | VNull => Some ""
                    | _ => to_string x
                    end) with
             | None => None
             | Some sx =>
                 match rest with
                 | [] => Some sx
                 | _ :: _ =>
                     match join rest with
                     | None => None
                     | Some sr => Some (sx ++ "," ++ sr)%string
                     end
                 end
             end
         end) xs
  | VObject props =>
      if has_own props "toString" then None else Some "[object Object]"
  end.

(** [ToNumber]; [None] when it throws.  An array or an object is first
    made primitive: [valueOf] gives back the value itself, so the result
    is that of [ToString], read as a number. *)
Definition to_number (v : value) : option float :=
  match v with
  | VUndefined => Some nan
  | VNull => Some zero
  | VBool true => Some one
  | VBool false => Some zero
  | VNumber x => Some x
  | VString s => Some (string_to_number E s)
  | VArray _ | VObject _ =>
      match to_string v with
      | None => None
      | Some s => Some (string_to_number E s)
      end
  end.

Fixpoint float_of_nat (n : nat) : float :=
  match n with
  | O => zero
  | S m => (float_of_nat m + one)%float
  end.

(** [v.length < n]; [None] when it throws.  The length of a string or of
    an array is an exact natural number, compared as such.  An object
    may carry a property of that name, which is converted to a number
    for the comparison, and that conversion may throw.  A boolean or a
    number has no [length], and [undefined < n] is false.  On [null] and
    [undefined] the property access itself throws. *)
Definition length_lt (v : value) (n : nat) : option bool :=
  match v with
  | VString s => Some (Nat.ltb (String.length s) n)
  | VArray xs => Some (Nat.ltb (List.length xs) n)
  | VObject o =>
      match to_number (get o "length") with
      | None => None
      | Some x => Some (x <? float_of_nat n)%float
      end
  | VBool _ | VNumber _ => Some false
  | VUndefined | VNull => None
  end.

(** [!v || v.length < n]: the right operand is evaluated only for a
    truthy [v]. *)
Definition too_short (v : value) (n : nat) : option bool :=
  if negb (truthy v) then Some true else length_lt v n.
End Conversions.

End JS.
Import JS.

(* ================================================================== *)
(** * The file system and the event loop *)
(* ================================================================== *)

(** The two collection files, named by the environment variables that
    hold their paths. *)
Inductive path : Type := USER_DATA_PATH | POST_DATA_PATH.

(** The text of a file, seen through [JSON.parse]: either a JSON array of
    objects, or text on which [JSON.parse] throws (with the message of
    the error).  Other JSON documents are outside the model. *)
Inductive content : Type :=
| Unparsable (message : string)
| Collection (rs : list record).

Inductive file : Type :=
| Unreadable (err : string)     (* opening or reading fails with [err] *)
| Readable (text : content).

Record disk : Type := { users_json : file; posts_json : file }.

Definition read (d : disk) (p : path) : file :=
  match p with
  | USER_DATA_PATH => users_json d
  | POST_DATA_PATH => posts_json d
  end.

Definition store (d : disk) (p : path) (f : file) : disk :=
  match p with
  | USER_DATA_PATH => {| users_json := f; posts_json := posts_json d |}
  | POST_DATA_PATH => {| users_json := users_json d; posts_json := f |}
  end.

(** [JSON.parse(chunks.join(''))]; [None] when it throws. *)
Definition JSON_parse (text : content) : option (list record) :=
  match text with
  | Unparsable _ => None
  | Collection rs => Some rs
  end.

(** How the operating system settles a write that opens the file with
    flag [w] (both [fs.createWriteStream] and [fs.writeFile] do): the
    whole text arrives; or the file cannot be opened and stays as it
    was; or the file is truncated on opening and the write then fails,
    which leaves a strict prefix of the text, never a JSON document. *)
Inductive write_outcome : Type := Written | OpenFailed | Interrupted.

Definition failed (o : write_outcome) : bool :=
  match o with Written => false | OpenFailed | Interrupted => true end.

Definition commit (d : disk) (p : path) (doc : list record) (o : write_outcome) : disk :=
  match o with
  | Written => store d p (Readable (Collection doc))
  | OpenFailed => d
  | Interrupted => store d p (Readable (Unparsable "Unexpected end of JSON input"))
  end.

(** What a handler does, callback by callback.  Each constructor that
    starts an asynchronous operation carries the callbacks registered
    for it and then the rest of the current callback [k], which runs
    first: Node runs a callback to completion before it delivers the
    next event. *)
Inductive prog : Type :=
| Return
    (* the callback returns *)
| Throw
    (* an exception leaves the callback; no handler catches it *)
| Send (status : nat) (body : value) (k : prog)
    (* res.status(status).send(body) *)
| Emit (name : string) (arg : value) (k : prog)
    (* eventEmitter.emit(name, arg) *)
| CreateReadStream (p : path) (on_end : content -> prog) (on_error : string -> prog) (k : prog)
    (* fs.createReadStream(p) with its 'data', 'end' and 'error' listeners *)
| StreamWrite (p : path) (doc : list record) (k : prog)
    (* s = fs.createWriteStream(p); s.write(doc); s.end(), with no listener on s;
       the stream opens the file asynchronously and queues the text till then *)
| WriteFile (p : path) (doc : list record) (callback : bool -> prog) (k : prog)
    (* fs.writeFile(p, doc, callback); the callback receives whether there is an error *)
| ReadDataFromFile (p : path) (resolve : list record -> prog) (reject : string -> prog).
    (* await readDataFromFile(p) inside try/catch *)

(** What an observer of the server and of the disk sees, in order. *)
Inductive event : Type :=
| ReadStarted (p : path)
| WriteStarted (p : path) (doc : list record)
| WriteSettled (p : path) (o : write_outcome)
| Responded (status : nat) (body : value)
| Emitted (name : string) (arg : value)
| Uncaught.

(** Modelled from the spec: [readDataFromFile] of [src/utils/file-utils],
    which [get-post.ts] imports, is not among the sources.  It is read as
    the spec's [loadCollection]: it yields the sequence of records of the
    file, and fails (here with the text of the error) when the file
    cannot be read or its content cannot be parsed. *)
Definition readDataFromFile (d : disk) (p : path) : list record + string :=
  match read d p with
  | Unreadable err => inr err
  | Readable (Unparsable message) => inr message
  | Readable (Collection rs) => inl rs
  end.

(** A stream that fails emits ['error']; with no listener for it, Node
    throws the error, and nothing catches it. *)
Definition unheard_error (o : write_outcome) : list event :=
  if failed o then [Uncaught] else [].

(** The event loop.  [o] is how the environment settles the writes of
    this request.  The handlers start at most one operation per
    callback, so the order among several pending operations never
    matters here. *)
Fixpoint exec (o : write_outcome) (c : prog) (d : disk) : list event * disk :=
  match c with
  | Return => ([], d)
  | Throw => ([Uncaught], d)
  | Send status body k =>
      let (t, d') := exec o k d in (Responded status body :: t, d')
  | Emit name arg k =>
      let (t, d') := exec o k d in (Emitted name arg :: t, d')
  | CreateReadStream p on_end on_error k =>
      let (t1, d1) := exec o k d in
      let (t2, d2) :=
        match read d1 p with
        | Unreadable err => exec o (on_error err) d1
        | Readable text => exec o (on_end text) d1
        end in
      (ReadStarted p :: t1 ++ t2, d2)
  | StreamWrite p doc k =>
      let (t1, d1) := exec o k d in
      (WriteStarted p doc :: t1 ++ WriteSettled p o :: unheard_error o,
       commit d1 p doc o)
  | WriteFile p doc callback k =>
      let (t1, d1) := exec o k d in
      let (t2, d2) := exec o (callback (failed o)) (commit d1 p doc o) in
      (WriteStarted p doc :: t1 ++ WriteSettled p o :: t2, d2)
  | ReadDataFromFile p resolve reject =>
      let (t, d') :=
        match readDataFromFile d p with
        | inl rs => exec o (resolve rs) d
        | inr error => exec o (reject error) d
        end in
      (ReadStarted p :: t, d')
  end.

Definition trace (o : write_outcome) (c : prog) (d : disk) : list event :=
  fst (exec o c d).

Definition disk_after (o : write_outcome) (c : prog) (d : disk) : disk :=
  snd (exec o c d).

(** The responses sent, in order. *)
Fixpoint responses (t : list event) : list (nat * value) :=
  match t with
  | [] => []
  | Responded status body :: rest => (status, body) :: responses rest
  | _ :: rest => responses rest
  end.

(** Whether the trace touches a file. *)
Definition touches_file (e : event) : bool :=
  match e with
  | ReadStarted _ | WriteStarted _ _ | WriteSettled _ _ => true
  | Responded _ _ | Emitted _ _ | Uncaught => false
  end.

Definition success (status : nat) : bool :=
  Nat.leb 200 status && Nat.ltb status 300.

(** No success status goes out while a write is still unsettled:
    [pending] counts the writes started and not yet settled. *)
Fixpoint responds_after_persist (pending : nat) (t : list event) : bool :=
  match t with
  | [] => true
  | WriteStarted _ _ :: rest => responds_after_persist (S pending) rest
  | WriteSettled _ _ :: rest => responds_after_persist (pred pending) rest
  | Responded status _ :: rest =>
      (negb (success status) || Nat.eqb pending 0) && responds_after_persist pending rest
  | _ :: rest => responds_after_persist pending rest
  end.

(* ================================================================== *)
(** * Requests *)
(* ================================================================== *)

Module Express.

(** The parts of an Express request the handlers read.  Route parameters
    are strings; [id] and [userId] are whatever the authentication
    middleware stored under these names ([undefined] when it stored
    nothing); the body is the parsed JSON object of the request. *)
Record request : Type := {
  params : list (string * string);
  body : record;
  id : value;
  userId : value
}.

(** [req.params.k] *)
Fixpoint param (ps : list (string * string)) (k : string) : value :=
  match ps with
  | [] => VUndefined
  | (k', s) :: rest => if String.eqb k' k then VString s else param rest k
  end.

End Express.

(** What the handlers obtain from the outside at each request:
    [uuidv4()] and [new Date().toISOString()]. *)
Record clock : Type := { uuidv4 : string; now : string }.

(* ================================================================== *)
(** * The record store of the spec *)
(* ================================================================== *)

(** The repository has no record-store module: [findOne], [upsertMutate]
    and [removeWhere] are the spec's names for what the handlers do
    inline with [Array.prototype.find], [map] and [filter].  They are
    defined here from the words of the spec, to be set against the
    callbacks of the handlers. *)
Module RecordStore.


(** Modelled from the spec: "every record matching [predicate] has
    [mutator] applied; non-matching records pass through unchanged". *)
Definition upsertMutate (records : list record) (predicate : record -> bool)
    (mutator : record -> record) : list record :=
  List.map (fun r => if predicate r then mutator r else r) records.

(** Modelled from the spec: "returns a new sequence excluding all
    records matching [predicate]". *)
Definition removeWhere (records : list record) (predicate : record -> bool) : list record :=
  List.filter (fun r => negb (predicate r)) records.

End RecordStore.

(* ================================================================== *)
(** * The handlers *)
(* ================================================================== *)

Definition storage_error : string := "An error occurred. Please try again later.".

(** ** POST /post  ([routes/create-post.js])

    The [try] of the source encloses only the synchronous start of the
    read, which does not throw; its [catch] never runs.  The callbacks
    run later, outside of it.  The two tests on the body come before the
    [try]: when one of them throws, the exception leaves the handler,
    which has sent nothing; what Express makes of it is outside the
    model. *)
Section CreatePost.
Variable E : engine.
Variable C : clock.

Definition create_post (req : Express.request) : prog :=
  let title := get (Express.body req) "title" in
  let description := get (Express.body req) "description" in
  let userId := Express.id req in
  match too_short E title 3 with
  | None => Throw
  | Some true =>
      Send 400 (VString "Title is required and should be at least 3 characters long.") Return
  | Some false =>
      match too_short E description 10 with
      | None => Throw
      | Some true =>
          Send 400
            (VString "Description is required and should be at least 10 characters long.")
            Return
      | Some false =>
          let post : record :=
            [ ("id", VString (uuidv4 C));
              ("title", title);
              ("description", description);
              ("date", VString (now C));
              ("userId", userId) ] in
          CreateReadStream POST_DATA_PATH
            (* 'end' *)
            (fun data =>
               match JSON_parse data with
               | None => Throw
               | Some posts =>
                   let posts := posts ++ [post] in
                   StreamWrite POST_DATA_PATH (JSON_stringify posts)
                     (Send 201 (VString "Post created successfully.") Return)
               end)
            (* 'error' *)
            (fun _ => Send 500 (VString storage_error) Return)
            Return
      end
  end.
End CreatePost.

(** ** DELETE /post/:id

    The router registers this handler under ['post/:id']; routing is
    Express's business, the handler is modelled as Express calls it. *)

(** The callback of [posts.find]: [post.id === id && post.userId === userId] *)
Definition owned_post (id userId : value) (post : record) : bool :=
  strict_eq (get post "id") id && strict_eq (get post "userId") userId.

(** The callback of [posts.filter]: [post.id !== id && post.userId === userId] *)
Definition kept_post (id userId : value) (post : record) : bool :=
  strict_neq (get post "id") id && strict_eq (get post "userId") userId.

Definition delete_post (req : Express.request) : prog :=
  let id := Express.param (Express.params req) "id" in
  let userId := Express.id req in
  if negb (truthy id) then
    Send 400 (VString "Post ID is required.") Return
  else if negb (truthy userId) then
    Send 400 (VString "User ID is required.") Return
  else
    CreateReadStream POST_DATA_PATH
      (* 'end' *)
      (fun data =>
         match JSON_parse data with
         | None => Throw
         | Some posts =>
             match List.find (owned_post id userId) posts with
             | None => Send 404 (VString "Post not found.") Return
             | Some _ =>
                 let posts := List.filter (kept_post id userId) posts in
                 StreamWrite POST_DATA_PATH (JSON_stringify posts)
                   (Send 201 (VString "Post deleted successfully.") Return)
             end
         end)
      (* 'error' *)
      (fun _ => Send 500 (VString storage_error) Return)
      Return.

(** ** PUT /profile-update  ([routes/profile-update.js]) *)

(** The callback of [users.map] *)
Definition update_user (id firstName lastName : value) (u : record) : record :=
  if strict_eq (get u "id") id then
    set (set u "firstName" firstName) "lastName" lastName
  else u.

Definition profile_update (req : Express.request) : prog :=
  let firstName := get (Express.body req) "firstName" in
  let lastName := get (Express.body req) "lastName" in
  let id := Express.id req in
  CreateReadStream USER_DATA_PATH
    (* 'end' *)
    (fun data =>
       match JSON_parse data with
       | None => Throw
       | Some users =>
           let users := List.map (update_user id firstName lastName) users in
           WriteFile USER_DATA_PATH (JSON_stringify users)
             (fun err =>
                if err then Send 500 (VString storage_error) Return
                else
                  match List.find (fun u => strict_eq (get u "id") id) users with
                  | None => Throw     (* user.email with user undefined *)
                  | Some user =>
                      Emit "profileUpdated" (get user "email")
                        (Send 200 (VString "Profile updated successfully.") Return)
                  end)
             Return
       end)
    (* 'error' *)
    (fun err => Send 500 (VString (storage_error ++ err)) Return)
    Return.

(** ** GET /post  ([src/routes/get-post.ts])

    The [try] encloses the whole body, the projection of the posts
    included: a template literal that throws is caught and answered 500
    like a file that does not load. *)

(** What V8 prints for the [TypeError] of a failed conversion. *)
Definition type_error : string := "TypeError: Cannot convert object to primitive value".

(** [Array.prototype.map] with a callback that may throw: [None] when
    it throws on an element. *)
Fixpoint map_or_throw {A B : Type} (f : A -> option B) (l : list A) : option (list B) :=
  match l with
  | [] => Some []
  | x :: rest =>
      match f x with
      | None => None
      | Some y =>
          match map_or_throw f rest with
          | None => None
          | Some ys => Some (y :: ys)
          end
      end
  end.

Section GetPost.
Variable E : engine.

(** [user?.k] *)
Definition optional_get (user : option record) (k : string) : value :=
  match user with
  | None => VUndefined
  | Some u => get u k
  end.

(** The callback of [posts.map]; [None] when the template literal
    throws. *)
Definition post_response (user : option record) (post : record) : option record :=
  match to_string E (optional_get user "firstName"),
        to_string E (optional_get user "lastName") with
  | Some firstName, Some lastName =>
      Some [ ("title", get post "title");
             ("description", get post "description");
             ("date", get post "date");
             ("authorName", VString (firstName ++ " " ++ lastName)) ]
  | _, _ => None
  end.

Definition get_post (req : Express.request) : prog :=
  let userId := Express.userId req in
  let catch := fun error => Send 500 (VString (storage_error ++ error)) Return in
  ReadDataFromFile POST_DATA_PATH
    (fun posts =>
       ReadDataFromFile USER_DATA_PATH
         (fun users =>
            let user := List.find (fun user => strict_eq (get user "id") userId) users in
            match
              map_or_throw (post_response user)
                (List.filter (fun post => strict_eq (get post "userId") userId) posts)
            with
            | Some postResponse => Send 200 (VArray (List.map VObject postResponse)) Return
            | None => catch type_error
            end)
         catch)
    catch.
End GetPost.

(** ** POST /login  ([routes/login.js])

    [bcrypt.compareSync] and [jwt.sign] belong to their libraries; the
    handler is parametric in them.  Either may throw ([None]):
    [compareSync] on arguments that are not strings, [sign] without a
    usable secret.  As in create-post, the [try] of the source encloses
    only the start of the read. *)
Record crypto : Type := {
  compareSync : value -> value -> option bool;
  sign : record -> option string
}.

(** [Array.prototype.find] with a callback that may throw: [None] when
    the callback throws before an element is accepted. *)
Fixpoint find_or_throw (p : record -> option bool) (l : list record)
    : option (option record) :=
  match l with
  | [] => Some None
  | x :: rest =>
      match p x with
      | None => None
      | Some true => Some (Some x)
      | Some false => find_or_throw p rest
      end
  end.

Section Login.
Variable K : crypto.

(** The callback of [users.find]:
    [u.email === email && bcrypt.compareSync(password, u.password)] *)
Definition credentials_match (email password : value) (u : record) : option bool :=
  if strict_eq (get u "email") email then compareSync K password (get u "password")
  else Some false.

Definition login (req : Express.request) : prog :=
  let email := get (Express.body req) "email" in
  let password := get (Express.body req) "password" in
  if negb (truthy email) || negb (truthy password) then
    Send 400 (VString "All input is required.") Return
  else
    CreateReadStream USER_DATA_PATH
      (* 'end' *)
      (fun data =>
         match JSON_parse data with
         | None => Throw
         | Some users =>
             match find_or_throw (credentials_match email password) users with
             | None => Throw
             | Some None => Send 400 (VString "Invalid credentials.") Return
             | Some (Some user) =>
                 match sign K [("id", get user "id")] with
                 | None => Throw
                 | Some token => Send 200 (VObject [("token", VString token)]) Return
                 end
             end
         end)
      (* 'error' *)
      (fun err => Send 500 (VString (storage_error ++ err)) Return)
      Return.
End Login.

(* ================================================================== *)
(** * The review and vinyl services  ([src/reviews/reviews.service.ts]) *)
(* ================================================================== *)

Module Nest.

(** The calls a service method awaits, each with the argument object the
    source builds for it: the Prisma delegates of the two tables and the
    S3 service. *)
Inductive call : Type :=
| review_create (args : value)
| review_findUnique (args : value)
| review_delete (args : value)
| review_findMany (args : value)
| vinyl_findUnique (args : value)
| vinyl_create (args : value)
| vinyl_update (args : value)
| vinyl_delete (args : value)
| s3_uploadFile (file : value)
| s3_deleteFile (url : value).

(** How an awaited promise settles. *)
Inductive answer : Type :=
| Fulfilled (v : value)
| Rejected (reason : value).

(** The body of an [async] method: it returns, throws an
    [HttpException], or awaits a call and goes on with what the call
    resolves to.  No method has a [try]: a call that rejects ends the
    method with that rejection. *)
Inductive service : Type :=
| Resolve (v : value)
| Raise (message : string) (status : nat)
| Await (c : call) (k : value -> service).

Inductive result : Type :=
| Returned (v : value)
| HttpException (message : string) (status : nat)
| Failed (reason : value).

(** The database and the object store answer each call knowing the calls
    made before it. *)
Definition oracle : Type := list call -> call -> answer.

(** Runs a method: the calls it makes, in order, after [history], and how
    it ends. *)
Fixpoint run (ora : oracle) (history : list call) (s : service) : list call * result :=
  match s with
  | Resolve v => (history, Returned v)
  | Raise message status => (history, HttpException message status)
  | Await c k =>
      match ora history c with
      | Fulfilled v => run ora (history ++ [c]) (k v)
      | Rejected reason => (history ++ [c], Failed reason)
      end
  end.

Definition calls (ora : oracle) (s : service) : list call := fst (run ora [] s).
Definition outcome (ora : oracle) (s : service) : result := snd (run ora [] s).

(** [v.k] for a truthy [v] and a name other than [length]: the property
    of an object, [undefined] on anything else. *)
Definition member (v : value) (k : string) : value :=
  match v with
  | VObject o => get o k
  | _ => VUndefined
  end.

(** [a ?? b] *)
Definition nullish_or (a b : value) : value :=
  match a with
  | VUndefined | VNull => b
  | _ => a
  end.

(** [{ where: { id } }] *)
Definition where_id (id : float) : value :=
  VObject [("where", VObject [("id", VNumber id)])].

(** [{ connect: { id } }] *)
Definition connect (id : float) : value :=
  VObject [("connect", VObject [("id", VNumber id)])].

(** Whether a call changes the database or the object store. *)
Definition mutates (c : call) : bool :=
  match c with
  | review_findUnique _ | review_findMany _ | vinyl_findUnique _ => false
  | _ => true
  end.

Section Services.
Variable E : engine.

(** [Number(s)] for a string *)
Definition Number (s : string) : float := string_to_number E s.

(** ** ReviewsService *)

Definition createReviews (vinylId : string) (userId : float) (data : record) : service :=
  Await
    (review_create
       (VObject
          [("data",
            VObject (set (set data "vinyl" (connect (Number vinylId)))
                       "user" (connect userId)))]))
    (fun review =>
       if negb (truthy review) then Raise "Review not created" 500
       else Resolve review).

Definition deleteReviews (id : string) : service :=
  Await (review_findUnique (where_id (Number id)))
    (fun review =>
       if negb (truthy review) then Raise "Review not found" 404
       else
         Await (review_delete (where_id (Number id)))
           (fun _ => Resolve (VString "Review deleted"))).

Definition getReviews (vinylId : string) (query : record) : service :=
  let limit := get query "limit" in
  let offset := get query "offset" in
  Await
    (review_findMany
       (VObject
          [("take", limit); ("skip", offset);
           ("where", VObject [("vinylId", VNumber (Number vinylId))])]))
    (fun reviews => Resolve reviews).

(** ** VinylsService *)

Definition getVinyl (id : float) : service :=
  Await
    (vinyl_findUnique
       (VObject [("where", VObject [("id", VNumber id)]);
                 ("include", VObject [("reviews", VBool true)])]))
    (fun vinyl =>
       if negb (truthy vinyl) then Raise "Vinyl not found" 404
       else Resolve vinyl).

Definition createVinyl (createVinylRecordDto : record) (coverImage : value) : service :=
  let name := get createVinylRecordDto "name" in
  let authorName := get createVinylRecordDto "authorName" in
  let description := get createVinylRecordDto "description" in
  let price := get createVinylRecordDto "price" in
  if negb (truthy coverImage) then Raise "Cover image is required" 400
  else
    Await (s3_uploadFile coverImage)
      (fun url =>
         Await
           (vinyl_create
              (VObject
                 [("data",
                   VObject [("name", name); ("authorName", authorName);
                            ("description", description); ("price", price);
                            ("image", url)])]))
           (fun vinyl =>
              if negb (truthy vinyl) then
                Await (s3_deleteFile url)
                  (fun _ => Raise "Vinyl cannot be created" 500)
              else Resolve vinyl)).

(** The argument of [vinyl.update] in [updateVinyl] *)
Definition update_args (id : float) (createVinylRecordDto : record) (vinyl url : value)
    : value :=
  let name := get createVinylRecordDto "name" in
  let authorName := get createVinylRecordDto "authorName" in
  let description := get createVinylRecordDto "description" in
  let price := get createVinylRecordDto "price" in
  VObject
    [("where", VObject [("id", VNumber id)]);
     ("data",
      VObject [("name", nullish_or name (member vinyl "name"));
               ("authorName", nullish_or authorName (member vinyl "authorName"));
               ("description", nullish_or description (member vinyl "description"));
               ("price", nullish_or price (member vinyl "price"));
               ("image", url)])].

Definition updateVinyl (id : float) (createVinylRecordDto : record) (coverImage : value)
    : service :=
  Await (vinyl_findUnique (where_id id))
    (fun vinyl =>
       if negb (truthy vinyl) then Raise "Vinyl not found" 404
       else
         let update := fun url =>
           Await (vinyl_update (update_args id createVinylRecordDto vinyl url))
             (fun updatedVinyl =>
                if negb (truthy updatedVinyl) then Raise "Vinyl cannot be updated" 500
                else Resolve updatedVinyl) in
         if truthy coverImage then
           Await (s3_deleteFile (member vinyl "image"))
             (fun _ => Await (s3_uploadFile coverImage) (fun url => update url))
         else update (member vinyl "image")).

Definition deleteVinyl (id : float) : service :=
  Await (vinyl_findUnique (where_id id))
    (fun vinyl =>
       if negb (truthy vinyl) then Raise "Vinyl not found" 404
       else
         Await (s3_deleteFile (member vinyl "image"))
           (fun _ =>
              Await (vinyl_delete (where_id id))
                (fun _ => Resolve VUndefined))).
End Services.

End Nest.

(* ================================================================== *)
(** * Properties of records and documents *)
(* ================================================================== *)

(** A field is present in a record when the record has a property of
    that name that JSON prints, that is, one whose value is not
    [undefined]. *)
Definition has_field (r : record) (k : string) : bool :=
  negb (is_undefined (get r k)).

(** Values that [JSON.stringify] prints as they are. *)
Fixpoint canonical (v : value) : bool :=
  match v with
  | VUndefined => false
  | VNull | VBool _ | VString _ => true
  | VNumber x => is_finite x && negb (is_zero x && get_sign x)
  | VArray xs => forallb canonical xs
  | VObject props => forallb (fun kv => canonical (snd kv)) props
  end.

Definition canonical_record (r : record) : bool :=
  forallb (fun kv => canonical (snd kv)) r.

Definition canonical_collection (rs : list record) : bool :=
  forallb canonical_record rs.

(** An object has no two properties of the same name. *)
Definition well_formed (r : record) : Prop := NoDup (List.map fst r).

(** "missing or shorter than [n] characters", for a field of the request
    body; a character is a UTF-16 code unit, as [String.prototype.length]
    counts them. *)
Definition missing_or_shorter (v : value) (n : nat) : Prop :=
  v = VUndefined \/ v = VNull \/ exists s, v = VString s /\ String.length s < n.

(* ================================================================== *)
(** * Sample data *)
(* ================================================================== *)

Module Sample.

(** The sample data holds strings only, so the conversions of this
    engine are never consulted. *)
Definition engine : JS.engine :=
  {| number_to_string := fun _ => "NaN"; string_to_number := fun _ => nan |}.

Definition at_noon : clock :=
  {| uuidv4 := "7c9e6679-7425-40de-944b-e07fc1f90ae7";
     now := "2024-10-31T12:00:00.000Z" |}.

Definition post (id title userId : string) : record :=
  [ ("id", VString id); ("title", VString title);
    ("description", VString "a valid description");
    ("date", VString "2024-10-31T09:00:00.000Z"); ("userId", VString userId) ].

Definition ann : record :=
  [ ("id", VString "u1"); ("email", VString "ann@x.com"); ("password", VString "$2b$10$hash");
    ("firstName", VString "Ann"); ("lastName", VString "Lee") ].

Definition posts : list record :=
  [ post "p1" "Hello" "u1"; post "p2" "World" "u2" ].

Definition files : disk :=
  {| users_json := Readable (Collection [ann]);
     posts_json := Readable (Collection posts) |}.

Definition request (ps : list (string * string)) (b : record) (caller : value) : Express.request :=
  {| Express.params := ps; Express.body := b; Express.id := caller; Express.userId := caller |}.

(** DELETE /post/p1 by the owner of p1 *)
Definition delete_p1 : Express.request := request [("id", "p1")] [] (VString "u1").

(** DELETE /post/p2 by someone who does not own p2 *)
Definition delete_p2 : Express.request := request [("id", "p2")] [] (VString "u1").

(** POST /post with a valid body *)
Definition new_post : Express.request :=
  request [] [("title", VString "Hello"); ("description", VString "a valid description")]
    (VString "u1").

(** POST /post with a title of two characters *)
Definition short_title : Express.request :=
  request [] [("title", VString "Hi"); ("description", VString "a valid description")]
    (VString "u1").

(** PUT /profile-update with an empty body, by a known user *)
Definition empty_update : Express.request := request [] [] (VString "u1").

(** PUT /profile-update with both names, by a known user *)
Definition rename : Express.request :=
  request [] [("firstName", VString "Anna"); ("lastName", VString "Li")] (VString "u1").

(** PUT /profile-update and GET /post by a caller no user record matches *)
Definition stranger : Express.request :=
  request [] [("firstName", VString "No"); ("lastName", VString "One")] (VString "u2").

End Sample.

(** Sample data that JSON can hold and that cannot be printed. *)
Module Odd.

(** [{ "toString": 1 }] *)
Definition unprintable : value := VObject [("toString", VNumber 1)].

(** POST /post with the title [{ "length": { "toString": 1 } }] and a
    description of five characters *)
Definition odd_title : Express.request :=
  Sample.request []
    [("title", VObject [("length", unprintable)]); ("description", VString "short")]
    (VString "u1").

(** PUT /profile-update that stores an unprintable first name *)
Definition odd_rename : Express.request :=
  Sample.request [] [("firstName", unprintable); ("lastName", VString "Lee")] (VString "u1").

(** The record of ann once that request went through *)
Definition odd_ann : record :=
  [ ("id", VString "u1"); ("email", VString "ann@x.com"); ("password", VString "$2b$10$hash");
    ("firstName", unprintable); ("lastName", VString "Lee") ].

Definition files : disk :=
  {| users_json := Readable (Collection [odd_ann]);
     posts_json := Readable (Collection Sample.posts) |}.

(** A second user, whose id is not that of any request of the samples *)
Definition zoe : record :=
  [ ("id", VString "u9"); ("email", VString "zoe@x.com"); ("password", VString "$2b$10$hash");
    ("firstName", VString "Zoe"); ("lastName", VString "Kim") ].

Definition two_users : disk :=
  {| users_json := Readable (Collection [Sample.ann; zoe]);
     posts_json := Readable (Collection Sample.posts) |}.

End Odd.

(** Sample accounts for POST /login. *)
Module Accounts.

(** A toy pair of libraries: the hash of a password is the password
    after "hash:", a token is the id after "jwt.". *)
Definition toy : crypto :=
  {| compareSync := fun password hash =>
       match password, hash with
       | VString p, VString h => Some (String.eqb ("hash:" ++ p)%string h)
       | _, _ => None
       end;
     sign := fun payload =>
       match get payload "id" with
       | VString i => Some ("jwt." ++ i)%string
       | _ => None
       end |}.

Definition ann : record :=
  [ ("id", VString "u1"); ("email", VString "ann@x.com"); ("password", VString "hash:secret");
    ("firstName", VString "Ann"); ("lastName", VString "Lee") ].

Definition bob : record :=
  [ ("id", VString "u2"); ("email", VString "bob@x.com"); ("password", VString "hash:hunter2");
    ("firstName", VString "Bob"); ("lastName", VString "Ray") ].

Definition files : disk :=
  {| users_json := Readable (Collection [ann; bob]);
     posts_json := Readable (Collection Sample.posts) |}.

(** Like [toy], but it throws on every hash other than that of ann. *)
Definition picky : crypto :=
  {| compareSync := fun password hash =>
       match hash with
       | VString "hash:secret" => compareSync toy password hash
       | _ => None
       end;
     sign := sign toy |}.

Definition attempt (email password : string) : Express.request :=
  Sample.request [] [("email", VString email); ("password", VString password)] VUndefined.

End Accounts.

(** Sample answers of the database and of the object store. *)
Module Shop.

Definition vinyl : value :=
  VObject [ ("id", VNumber 7); ("name", VString "Kind of Blue");
            ("authorName", VString "Miles Davis"); ("description", VString "1959");
            ("price", VNumber 25); ("image", VString "https://s3/kind-of-blue.jpg") ].

Definition cover : value := VObject [("originalname", VString "cover.jpg")].

(** Every lookup finds [vinyl], every upload yields the same address,
    every other call resolves to [vinyl] as well. *)
Definition stocked : Nest.oracle :=
  fun _ c =>
    match c with
    | Nest.s3_uploadFile _ => Nest.Fulfilled (VString "https://s3/new.jpg")
    | Nest.s3_deleteFile _ => Nest.Fulfilled VUndefined
    | _ => Nest.Fulfilled vinyl
    end.

(** Every lookup finds nothing. *)
Definition empty : Nest.oracle := fun _ _ => Nest.Fulfilled VNull.

(** The object store is down: its calls reject, the database answers. *)
Definition s3_down : Nest.oracle :=
  fun _ c =>
    match c with
    | Nest.s3_uploadFile _ | Nest.s3_deleteFile _ => Nest.Rejected (VString "S3 unavailable")
    | _ => Nest.Fulfilled vinyl
    end.

(** The object store deletes and then stops taking uploads. *)
Definition s3_half_down : Nest.oracle :=
  fun _ c =>
    match c with
    | Nest.s3_uploadFile _ => Nest.Rejected (VString "S3 unavailable")
    | Nest.s3_deleteFile _ => Nest.Fulfilled VUndefined
    | _ => Nest.Fulfilled vinyl
    end.

(** The database finds the vinyl and refuses to write. *)
Definition read_only : Nest.oracle :=
  fun _ c =>
    match c with
    | Nest.vinyl_findUnique _ | Nest.review_findUnique _ => Nest.Fulfilled vinyl
    | Nest.s3_uploadFile _ => Nest.Fulfilled (VString "https://s3/new.jpg")
    | Nest.s3_deleteFile _ => Nest.Fulfilled VUndefined
    | _ => Nest.Rejected (VString "read-only transaction")
    end.

End Shop.

(* ================================================================== *)
(** * Lemmas on lists, records and documents *)
(* ================================================================== *)

Lemma find_none_iff {A : Type} (p : A -> bool) (l : list A) :
  List.find p l = None <-> (forall x, In x l -> p x = false).
Proof.
  split.
  - apply find_none.
  - induction l as [|a l IH]; intros H; cbn [List.find]; [reflexivity|].
    rewrite (H a (or_introl eq_refl)). apply IH.
    intros x Hx. apply H. right. exact Hx.
Qed.


Lemma map_unmatched {A : Type} (p : A -> bool) (f : A -> A) (l : list A) :
  (forall x, In x l -> p x = false) ->
  List.map (fun x => if p x then f x else x) l = l.
Proof.
  induction l as [|a l IH]; intros H; cbn [List.map]; [reflexivity|].
  rewrite (H a (or_introl eq_refl)). f_equal.
  apply IH. intros x Hx. apply H. right. exact Hx.
Qed.

Lemma map_or_throw_total {A B : Type} (f : A -> option B) (g : A -> B) (l : list A) :
  (forall x, f x = Some (g x)) -> map_or_throw f l = Some (List.map g l).
Proof.
  intros H. induction l as [|a l IH]; [reflexivity|].
  cbn [map_or_throw List.map]. rewrite H, IH. reflexivity.
Qed.


Lemma store_read (d : disk) (p : path) : store d p (read d p) = d.
Proof. destruct d, p; reflexivity. Qed.

Lemma read_store (d : disk) (p : path) (f : file) : read (store d p f) p = f.
Proof. destruct p; reflexivity. Qed.

(** An induction principle that reaches the values nested in arrays and
    objects. *)
Lemma value_nested_ind (P : value -> Prop) :
  P VUndefined -> P VNull -> (forall b, P (VBool b)) ->
  (forall x, P (VNumber x)) -> (forall s, P (VString s)) ->
  (forall xs, Forall P xs -> P (VArray xs)) ->
  (forall props, Forall (fun kv => P (snd kv)) props -> P (VObject props)) ->
  forall v, P v.
Proof.
  intros Hu Hn Hb Hx Hs Ha Ho.
  fix IH 1. intros [ | | b | x | s | xs | props].
  - exact Hu.
  - exact Hn.
  - apply Hb.
  - apply Hx.
  - apply Hs.
  - apply Ha. induction xs as [|y ys IHys]; constructor; [apply IH | exact IHys].
  - apply Ho. induction props as [|[k y] ps IHps]; constructor; [apply IH | exact IHps].
Qed.

Lemma to_json_defined (v : value) :
  is_undefined v = false -> is_undefined (to_json v) = false.
Proof.
  destruct v; cbn; try reflexivity; try discriminate.
  intros _. unfold number_to_json.
  destruct (is_finite x); [destruct (is_zero x && get_sign x)|]; reflexivity.
Qed.

Lemma to_json_canonical (v : value) : canonical v = true -> to_json v = v.
Proof.
  induction v as [ | | b | x | s | xs IH | props IH ] using value_nested_ind;
    cbn [canonical to_json]; intros H; try reflexivity; try discriminate.
  - unfold number_to_json. apply andb_true_iff in H. destruct H as [Hf Hz].
    rewrite Hf. apply negb_true_iff in Hz. rewrite Hz. reflexivity.
  - f_equal. induction IH as [|y ys Hy _ IHys]; [reflexivity|].
    cbn [forallb] in H. apply andb_true_iff in H. destruct H as [Hc Hr].
    cbn [List.map]. rewrite (Hy Hc), (IHys Hr).
    destruct y; try reflexivity. discriminate.
  - f_equal. induction IH as [|[k y] ps Hy _ IHps]; [reflexivity|].
    cbn [forallb snd] in H. apply andb_true_iff in H. destruct H as [Hc Hr].
    cbn [snd] in Hy. rewrite (Hy Hc), (IHps Hr).
    destruct y; try reflexivity. discriminate.
Qed.

Lemma record_to_json_canonical (r : record) :
  canonical_record r = true -> record_to_json r = r.
Proof.
  intros H. pose proof (to_json_canonical (VObject r) H) as Heq.
  cbn [to_json] in Heq. injection Heq as Heq. exact Heq.
Qed.

Lemma JSON_stringify_canonical (rs : list record) :
  canonical_collection rs = true -> JSON_stringify rs = rs.
Proof.
  unfold canonical_collection, JSON_stringify.
  induction rs as [|r rs IH]; cbn [forallb List.map]; intros H; [reflexivity|].
  apply andb_true_iff in H. destruct H as [Hr Hrs].
  rewrite (record_to_json_canonical r Hr), (IH Hrs). reflexivity.
Qed.

(** A present field stays present in the document that is written. *)
Lemma has_field_record_to_json (r : record) (k : string) :
  has_field r k = true -> has_field (record_to_json r) k = true.
Proof.
  unfold has_field. induction r as [|[k' x] rest IH]; cbn [get record_to_json].
  - discriminate.
  - destruct (String.eqb k' k) eqn:Hk.
    + intros Hx. apply negb_true_iff in Hx. rewrite Hx. cbn [get]. rewrite Hk.
      apply negb_true_iff. apply to_json_defined. exact Hx.
    + intros H. destruct (is_undefined x); [apply IH; exact H|].
      cbn [get]. rewrite Hk. apply IH. exact H.
Qed.

Lemma get_absent (r : record) (k : string) :
  ~ In k (List.map fst r) -> get r k = VUndefined.
Proof.
  induction r as [|[k' x] rest IH]; cbn [List.map fst get In]; intros H; [reflexivity|].
  destruct (String.eqb k' k) eqn:Hk.
  - apply String.eqb_eq in Hk. exfalso. apply H. left. exact Hk.
  - apply IH. intros Hin. apply H. right. exact Hin.
Qed.

(** Reading a property of the written document is reading it in memory
    and printing it. *)
Lemma get_record_to_json (r : record) (k : string) :
  well_formed r -> get (record_to_json r) k = to_json (get r k).
Proof.
  unfold well_formed.
  induction r as [|[k' x] rest IH]; cbn [List.map fst get record_to_json]; intros Hnd.
  - reflexivity.
  - inversion Hnd as [|? ? Hnotin Hrest]; subst.
    destruct (is_undefined x) eqn:Hx.
    + destruct (String.eqb k' k) eqn:Hk.
      * apply String.eqb_eq in Hk. subst k'.
        rewrite (IH Hrest), (get_absent rest k Hnotin).
        destruct x; try discriminate. reflexivity.
      * apply IH. exact Hrest.
    + cbn [get]. destruct (String.eqb k' k); [reflexivity | apply IH; exact Hrest].
Qed.

(** Printing does not change whether a value is a given string. *)
Lemma strict_eq_to_json_string (v : value) (s : string) :
  strict_eq (to_json v) (VString s) = strict_eq v (VString s).
Proof.
  destruct v; try reflexivity.
  cbn [to_json]. unfold number_to_json.
  destruct (is_finite x); [destruct (is_zero x && get_sign x)|]; reflexivity.
Qed.

Lemma param_truthy_is_string (ps : list (string * string)) (k : string) :
  truthy (Express.param ps k) = true -> exists s, Express.param ps k = VString s.
Proof.
  induction ps as [|[k' s] rest IH]; cbn [Express.param].
  - discriminate.
  - destruct (String.eqb k' k); [intros _; exists s; reflexivity | exact IH].
Qed.

Lemma get_set_same (r : record) (k : string) (v : value) : get (set r k v) k = v.
Proof.
  induction r as [|[k' x] rest IH]; cbn [set get].
  - rewrite String.eqb_refl. reflexivity.
  - destruct (String.eqb k' k) eqn:Hk; cbn [get]; rewrite Hk; [reflexivity | exact IH].
Qed.

Lemma get_set_other (r : record) (k k0 : string) (v : value) :
  k <> k0 -> get (set r k v) k0 = get r k0.
Proof.
  intros Hne. induction r as [|[k' x] rest IH]; cbn [set get].
  - apply String.eqb_neq in Hne. rewrite Hne. reflexivity.
  - destruct (String.eqb k' k) eqn:Hk; cbn [get].
    + apply String.eqb_eq in Hk. subst k'.
      apply String.eqb_neq in Hne. rewrite Hne. reflexivity.
    + rewrite IH. reflexivity.
Qed.

(* ================================================================== *)
(** * What each handler does *)
(* ================================================================== *)

Lemma delete_post_exec (o : write_outcome) (req : Express.request) (d : disk)
    (posts : list record) :
  truthy (Express.param (Express.params req) "id") = true ->
  truthy (Express.id req) = true ->
  read d POST_DATA_PATH = Readable (Collection posts) ->
  exec o (delete_post req) d =
    let id := Express.param (Express.params req) "id" in
    let userId := Express.id req in
    match List.find (owned_post id userId) posts with
    | None =>
        ([ReadStarted POST_DATA_PATH; Responded 404 (VString "Post not found.")], d)
    | Some _ =>
        let doc := JSON_stringify (List.filter (kept_post id userId) posts) in
        ([ReadStarted POST_DATA_PATH; WriteStarted POST_DATA_PATH doc;
          Responded 201 (VString "Post deleted successfully.")]
         ++ WriteSettled POST_DATA_PATH o :: unheard_error o,
         commit d POST_DATA_PATH doc o)
    end.
Proof.
  intros Hid Huser Hread. unfold delete_post.
  rewrite Hid, Huser. cbn [negb exec app]. rewrite Hread. cbn [JSON_parse].
  destruct (List.find _ posts); reflexivity.
Qed.

Lemma create_post_exec (E : engine) (C : clock) (o : write_outcome)
    (req : Express.request) (d : disk) (posts : list record) :
  let title := get (Express.body req) "title" in
  let description := get (Express.body req) "description" in
  too_short E title 3 = Some false ->
  too_short E description 10 = Some false ->
  read d POST_DATA_PATH = Readable (Collection posts) ->
  exec o (create_post E C req) d =
    let doc :=
      JSON_stringify
        (posts ++ [[ ("id", VString (uuidv4 C)); ("title", title);
                     ("description", description); ("date", VString (now C));
                     ("userId", Express.id req) ]]) in
    ([ReadStarted POST_DATA_PATH; WriteStarted POST_DATA_PATH doc;
      Responded 201 (VString "Post created successfully.")]
     ++ WriteSettled POST_DATA_PATH o :: unheard_error o,
     commit d POST_DATA_PATH doc o).
Proof.
  intros title description Ht Hd Hread. unfold create_post.
  fold title description. rewrite Ht, Hd. cbn [exec app]. rewrite Hread.
  reflexivity.
Qed.

Lemma profile_update_exec (o : write_outcome) (req : Express.request) (d : disk)
    (users : list record) :
  read d USER_DATA_PATH = Readable (Collection users) ->
  exec o (profile_update req) d =
    let id := Express.id req in
    let users' :=
      List.map (update_user id (get (Express.body req) "firstName")
                  (get (Express.body req) "lastName")) users in
    let doc := JSON_stringify users' in
    let started :=
      [ReadStarted USER_DATA_PATH; WriteStarted USER_DATA_PATH doc;
       WriteSettled USER_DATA_PATH o] in
    (started ++
       (if failed o then [Responded 500 (VString storage_error)]
        else match List.find (fun u => strict_eq (get u "id") id) users' with
             | None => [Uncaught]
             | Some user =>
                 [Emitted "profileUpdated" (get user "email");
                  Responded 200 (VString "Profile updated successfully.")]
             end),
     commit d USER_DATA_PATH doc o).
Proof.
  intros Hread. unfold profile_update. cbn [exec app]. rewrite Hread.
  cbn [JSON_parse exec app].
  destruct (failed o).
  - reflexivity.
  - destruct (List.find _ _); reflexivity.
Qed.

(** The callback of [users.map] is [upsertMutate] with the predicate
    [u.id === id] and the mutator that assigns the two names. *)
Lemma profile_update_map_is_upsertMutate
    (id firstName lastName : value) (users : list record) :
  List.map (update_user id firstName lastName) users
  = RecordStore.upsertMutate users
      (fun u => strict_eq (get u "id") id)
      (fun u => set (set u "firstName" firstName) "lastName" lastName).
Proof. reflexivity. Qed.

Lemma unmatched_users_unchanged (id firstName lastName : value) (users : list record) :
  (forall u, In u users -> strict_eq (get u "id") id = false) ->
  List.map (update_user id firstName lastName) users = users.
Proof.
  intros H. unfold update_user.
  apply (map_unmatched (fun u => strict_eq (get u "id") id)). exact H.
Qed.

(* ================================================================== *)
(** * The claims *)
(* ================================================================== *)




(** A 404 comes from nowhere else: the request passed both guards, the
    posts file was read, and the lookup found nothing. *)
Lemma delete_post_404_only_after_lookup
    (o : write_outcome) (req : Express.request) (d : disk) (b : value) :
  In (404, b) (responses (trace o (delete_post req) d)) ->
  truthy (Express.param (Express.params req) "id") = true
  /\ truthy (Express.id req) = true
  /\ exists posts,
       read d POST_DATA_PATH = Readable (Collection posts)
       /\ List.find (owned_post (Express.param (Express.params req) "id") (Express.id req))
            posts = None.
Proof.
  destruct (truthy (Express.param (Express.params req) "id")) eqn:Hid.
  2:{ unfold trace, delete_post. rewrite Hid. cbn. intros [H | []]. discriminate. }
  destruct (truthy (Express.id req)) eqn:Huser.
  2:{ unfold trace, delete_post. rewrite Hid, Huser. cbn. intros [H | []]. discriminate. }
  destruct (read d POST_DATA_PATH) as [err | [message | posts]] eqn:Hread.
  - unfold trace, delete_post. rewrite Hid, Huser. cbn [negb exec app]. rewrite Hread.
    cbn. intros [H | []]. discriminate.
  - unfold trace, delete_post. rewrite Hid, Huser. cbn [negb exec app]. rewrite Hread.
    cbn. intros [].
  - unfold trace. rewrite (delete_post_exec o req d posts Hid Huser Hread). cbv zeta.
    destruct (List.find _ posts) eqn:Hfind.
    + destruct o; cbn; intros [H | []]; discriminate.
    + intros _. repeat split. exists posts. split; [reflexivity | exact Hfind].
Qed.

(** C7.  Once the request carries a post id and a caller id and the
    posts file has been read, DELETE /post/:id answers 404 "Post not
    found." exactly when no record of the collection has both its id
    equal to the requested id and its userId equal to the caller's id:
    a post of that id owned by someone else is answered like an absent
    one. *)
Theorem delete_post_404_iff_no_owned_post
    (o : write_outcome) (req : Express.request) (d : disk) (posts : list record) :
  truthy (Express.param (Express.params req) "id") = true ->
  truthy (Express.id req) = true ->
  read d POST_DATA_PATH = Readable (Collection posts) ->
  (responses (trace o (delete_post req) d) = [(404, VString "Post not found.")]
   <->
   forall post, In post posts ->
     strict_eq (get post "id") (Express.param (Express.params req) "id")
     && strict_eq (get post "userId") (Express.id req) = false).
Proof.
  intros Hid Huser Hread. unfold trace.
  rewrite (delete_post_exec o req d posts Hid Huser Hread). cbv zeta.
  pose proof (find_none_iff
                (owned_post (Express.param (Express.params req) "id") (Express.id req))
                posts) as Hfind.
  unfold owned_post in Hfind at 2. rewrite <- Hfind.
  destruct (List.find _ posts) as [post|]; cbn [fst responses].
  - split; discriminate.
  - split; reflexivity.
Qed.

Lemma delete_post_404_iff_no_owned_post_witness :
  responses (trace Written (delete_post Sample.delete_p2) Sample.files)
  = [(404, VString "Post not found.")].
Proof.
  apply (delete_post_404_iff_no_owned_post Written Sample.delete_p2 Sample.files
           Sample.posts eq_refl eq_refl eq_refl).
  intros post [<- | [<- | []]]; reflexivity.
Defined.

Lemma missing_or_shorter_rejected (E : engine) (v : value) (n : nat) :
  missing_or_shorter v n -> too_short E v n = Some true.
Proof.
  intros [-> | [-> | [s [-> Hlen]]]]; [reflexivity | reflexivity |].
  unfold too_short. destruct (negb (truthy (VString s))); [reflexivity|].
  cbn [length_lt]. f_equal. apply Nat.ltb_lt. exact Hlen.
Qed.

(** C3, as stated, fails: with a title whose length cannot be compared
    to a number, the test of the title throws before the description is
    looked at; a description of five characters then gets no 400 and no
    other response. *)
Lemma short_description_unanswered_when_title_test_throws :
  missing_or_shorter (get (Express.body Odd.odd_title) "description") 10
  /\ exec Written (create_post Sample.engine Sample.at_noon Odd.odd_title) Sample.files
     = ([Uncaught], Sample.files)
  /\ responses (trace Written (create_post Sample.engine Sample.at_noon Odd.odd_title)
                  Sample.files) = [].
Proof.
  split; [|split; reflexivity].
  right. right. exists "short". split; [reflexivity | cbn; lia].
Qed.

(** C3, amended.  POST /post answers 400 when the title is missing or
    shorter than 3 characters, or when the test of the title completes
    and the description is missing or shorter than 10 characters; the
    400 is then all the handler does: no read and no write of the posts
    file is started, and the disk is as it was. *)
Theorem create_post_rejects_missing_or_short_fields
    (E : engine) (C : clock) (o : write_outcome) (req : Express.request) (d : disk) :
  missing_or_shorter (get (Express.body req) "title") 3
  \/ ((exists verdict, too_short E (get (Express.body req) "title") 3 = Some verdict)
      /\ missing_or_shorter (get (Express.body req) "description") 10) ->
  exists message,
    exec o (create_post E C req) d = ([Responded 400 (VString message)], d)
    /\ existsb touches_file (trace o (create_post E C req) d) = false.
Proof.
  intros H. unfold trace, create_post.
  destruct (too_short E (get (Express.body req) "title") 3) as [[|]|] eqn:Htitle.
  - eexists. split; reflexivity.
  - destruct H as [H | [_ H]].
    + rewrite (missing_or_shorter_rejected E _ _ H) in Htitle. discriminate.
    + rewrite (missing_or_shorter_rejected E _ _ H). eexists. split; reflexivity.
  - destruct H as [H | [[verdict H] _]].
    + rewrite (missing_or_shorter_rejected E _ _ H) in Htitle. discriminate.
    + discriminate.
Qed.

Lemma create_post_rejects_missing_or_short_fields_witness :
  (exists message,
      exec Written (create_post Sample.engine Sample.at_noon Sample.short_title) Sample.files
      = ([Responded 400 (VString message)], Sample.files)
      /\ existsb touches_file
           (trace Written (create_post Sample.engine Sample.at_noon Sample.short_title)
              Sample.files)
         = false)
  /\ (exists message,
        exec Written
          (create_post Sample.engine Sample.at_noon
             (Sample.request []
                [("title", VString "Hello"); ("description", VString "short")]
                (VString "u1")))
          Sample.files
        = ([Responded 400 (VString message)], Sample.files)
        /\ existsb touches_file
             (trace Written
                (create_post Sample.engine Sample.at_noon
                   (Sample.request []
                      [("title", VString "Hello"); ("description", VString "short")]
                      (VString "u1")))
                Sample.files)
           = false).
Proof.
  split.
  - apply (create_post_rejects_missing_or_short_fields Sample.engine Sample.at_noon Written
             Sample.short_title Sample.files).
    left. right. right. exists "Hi". split; [reflexivity | cbn; lia].
  - apply (create_post_rejects_missing_or_short_fields Sample.engine Sample.at_noon Written
             (Sample.request []
                [("title", VString "Hello"); ("description", VString "short")]
                (VString "u1"))
             Sample.files).
    right. split.
    + exists false. reflexivity.
    + right. right. exists "short". split; [reflexivity | cbn; lia].
Defined.

(** C9.  When both files are read and no user record has the caller's
    id, GET /post answers 200 with one entry for each post whose userId
    is the caller's id, in file order, and the authorName of every entry
    is the string "undefined undefined". *)
Theorem get_post_unknown_user_is_undefined_undefined
    (E : engine) (o : write_outcome) (req : Express.request) (d : disk)
    (posts users : list record) :
  read d POST_DATA_PATH = Readable (Collection posts) ->
  read d USER_DATA_PATH = Readable (Collection users) ->
  (forall u, In u users -> strict_eq (get u "id") (Express.userId req) = false) ->
  responses (trace o (get_post E req) d) =
    [(200,
      VArray
        (List.map
           (fun post =>
              VObject [ ("title", get post "title");
                        ("description", get post "description");
                        ("date", get post "date");
                        ("authorName", VString "undefined undefined") ])
           (List.filter (fun post => strict_eq (get post "userId") (Express.userId req))
              posts)))].
Proof.
  intros Hposts Husers Hnone. unfold trace, get_post.
  cbn [exec]. unfold readDataFromFile at 1. rewrite Hposts.
  cbn [exec]. unfold readDataFromFile. rewrite Husers.
  apply find_none_iff in Hnone. rewrite Hnone.
  rewrite (map_or_throw_total (post_response E None)
             (fun post => [ ("title", get post "title");
                            ("description", get post "description");
                            ("date", get post "date");
                            ("authorName", VString "undefined undefined") ]))
    by reflexivity.
  cbn [exec fst responses]. rewrite map_map. reflexivity.
Qed.

Lemma get_post_unknown_user_is_undefined_undefined_witness :
  responses (trace Written (get_post Sample.engine Sample.stranger) Sample.files) =
    [(200,
      VArray
        [VObject [ ("title", VString "World");
                   ("description", VString "a valid description");
                   ("date", VString "2024-10-31T09:00:00.000Z");
                   ("authorName", VString "undefined undefined") ]])].
Proof.
  apply (get_post_unknown_user_is_undefined_undefined Sample.engine Written Sample.stranger
           Sample.files Sample.posts [Sample.ann] eq_refl eq_refl).
  intros u [<- | []]. reflexivity.
Defined.

(** C10.  When the users file is read, no user record has the caller's
    id and the write goes through, PUT /profile-update rewrites the users
    file with the collection it loaded, unchanged, and the callback of
    the write then throws on [user.email]: the request gets no response
    at all. *)
Theorem profile_update_unknown_user_writes_then_throws
    (req : Express.request) (d : disk) (users : list record) :
  read d USER_DATA_PATH = Readable (Collection users) ->
  (forall u, In u users -> strict_eq (get u "id") (Express.id req) = false) ->
  exec Written (profile_update req) d =
    ([ReadStarted USER_DATA_PATH;
      WriteStarted USER_DATA_PATH (JSON_stringify users);
      WriteSettled USER_DATA_PATH Written;
      Uncaught],
     store d USER_DATA_PATH (Readable (Collection (JSON_stringify users))))
  /\ responses (trace Written (profile_update req) d) = []
  /\ (canonical_collection users = true ->
      disk_after Written (profile_update req) d = d).
Proof.
  intros Hread Hnone.
  assert (Hexec : exec Written (profile_update req) d =
    ([ReadStarted USER_DATA_PATH;
      WriteStarted USER_DATA_PATH (JSON_stringify users);
      WriteSettled USER_DATA_PATH Written;
      Uncaught],
     store d USER_DATA_PATH (Readable (Collection (JSON_stringify users))))).
  { rewrite (profile_update_exec Written req d users Hread). cbv zeta.
    rewrite (unmatched_users_unchanged _ _ _ users Hnone).
    apply find_none_iff in Hnone. rewrite Hnone. reflexivity. }
  split; [exact Hexec|]. unfold trace, disk_after. rewrite Hexec. split.
  - reflexivity.
  - intros Hcanon. cbn [snd]. rewrite (JSON_stringify_canonical users Hcanon).
    rewrite <- Hread. apply store_read.
Qed.

Lemma profile_update_unknown_user_writes_then_throws_witness :
  responses (trace Written (profile_update Sample.stranger) Sample.files) = []
  /\ disk_after Written (profile_update Sample.stranger) Sample.files = Sample.files.
Proof.
  assert (H : forall u, In u [Sample.ann] ->
                strict_eq (get u "id") (Express.id Sample.stranger) = false).
  { intros u [<- | []]. reflexivity. }
  destruct (profile_update_unknown_user_writes_then_throws Sample.stranger Sample.files
              [Sample.ann] eq_refl H) as [_ [Hnone Hdisk]].
  split; [exact Hnone | apply Hdisk; reflexivity].
Defined.

(** What DELETE /post/:id saves when it succeeds: the caller's other
    posts, and nothing else. *)
Lemma delete_post_saves_kept_posts
    (req : Express.request) (d : disk) (posts : list record) (post : record) :
  truthy (Express.param (Express.params req) "id") = true ->
  truthy (Express.id req) = true ->
  read d POST_DATA_PATH = Readable (Collection posts) ->
  List.find (owned_post (Express.param (Express.params req) "id") (Express.id req)) posts
  = Some post ->
  responses (trace Written (delete_post req) d)
  = [(201, VString "Post deleted successfully.")]
  /\ read (disk_after Written (delete_post req) d) POST_DATA_PATH
     = Readable (Collection (JSON_stringify
         (List.filter
            (kept_post (Express.param (Express.params req) "id") (Express.id req))
            posts))).
Proof.
  intros Hid Huser Hread Hfind. unfold trace, disk_after.
  rewrite (delete_post_exec Written req d posts Hid Huser Hread). cbv zeta.
  rewrite Hfind. cbn [fst snd responses commit]. split; [reflexivity | apply read_store].
Qed.

(** The filter of the handler against the removal the spec describes:
    what the handler keeps is what [removeWhere] leaves, cut down to the
    caller's own posts. *)
Lemma delete_post_filter_vs_removeWhere (id userId : value) (posts : list record) :
  List.filter (kept_post id userId) posts
  = List.filter (fun post => strict_eq (get post "userId") userId)
      (RecordStore.removeWhere posts (owned_post id userId)).
Proof.
  unfold RecordStore.removeWhere.
  induction posts as [|post posts IH]; [reflexivity|].
  cbn [List.filter]. unfold kept_post, owned_post, strict_neq in *.
  destruct (strict_eq (get post "id") id), (strict_eq (get post "userId") userId) eqn:Hu;
    cbn [negb andb List.filter]; rewrite ?Hu, IH; reflexivity.
Qed.

(** On disk too: when the objects of the posts file are well formed,
    the document DELETE /post/:id writes holds no record with the
    requested id. *)
Lemma delete_post_document_has_no_owned_post
    (o : write_outcome) (req : Express.request) (d : disk) (posts doc : list record) :
  Forall well_formed posts ->
  truthy (Express.param (Express.params req) "id") = true ->
  truthy (Express.id req) = true ->
  read d POST_DATA_PATH = Readable (Collection posts) ->
  In (WriteStarted POST_DATA_PATH doc) (trace o (delete_post req) d) ->
  List.find (owned_post (Express.param (Express.params req) "id") (Express.id req)) doc
  = None.
Proof.
  intros Hwf Hid Huser Hread Hin. unfold trace in Hin.
  rewrite (delete_post_exec o req d posts Hid Huser Hread) in Hin. cbv zeta in Hin.
  destruct (param_truthy_is_string _ _ Hid) as [s Hs]. rewrite Hs in *.
  assert (Hdoc : doc = JSON_stringify
                   (List.filter (kept_post (VString s) (Express.id req)) posts)).
  { destruct (List.find _ posts); cbn [fst] in Hin.
    - apply in_app_or in Hin. destruct Hin as [Hin | [H | Hin]].
      + destruct Hin as [H | [H | [H | []]]]; try discriminate.
        injection H as H. symmetry. exact H.
      + discriminate.
      + unfold unheard_error in Hin.
        destruct (failed o); [destruct Hin as [H | []]; discriminate | destruct Hin].
    - destruct Hin as [H | [H | []]]; discriminate. }
  subst doc. apply find_none_iff. intros r Hr.
  unfold JSON_stringify in Hr. apply in_map_iff in Hr.
  destruct Hr as [post [<- Hpost]]. apply filter_In in Hpost.
  destruct Hpost as [Hpost Hkept].
  rewrite Forall_forall in Hwf. specialize (Hwf post Hpost).
  unfold owned_post. rewrite (get_record_to_json post "id" Hwf).
  rewrite strict_eq_to_json_string.
  unfold kept_post, strict_neq in Hkept.
  destruct (strict_eq (get post "id") (VString s)); [discriminate | reflexivity].
Qed.

(** C1.  DELETE /post/p1 by user u1, on a posts file that holds p1 of u1
    and p2 of u2, answers 201 and saves the empty collection: the post of
    u2 is gone too, where removing the records with that id and that
    owner leaves it in place. *)
Theorem delete_post_drops_posts_of_other_users :
  responses (trace Written (delete_post Sample.delete_p1) Sample.files)
  = [(201, VString "Post deleted successfully.")]
  /\ read (disk_after Written (delete_post Sample.delete_p1) Sample.files) POST_DATA_PATH
     = Readable (Collection [])
  /\ JSON_stringify
       (RecordStore.removeWhere Sample.posts (owned_post (VString "p1") (VString "u1")))
     = [Sample.post "p2" "World" "u2"].
Proof.
  repeat split; reflexivity.
Qed.

Lemma create_post_answers_before_write_settles
    (E : engine) (C : clock) (o : write_outcome) (req : Express.request) (d : disk)
    (posts : list record) :
  too_short E (get (Express.body req) "title") 3 = Some false ->
  too_short E (get (Express.body req) "description") 10 = Some false ->
  read d POST_DATA_PATH = Readable (Collection posts) ->
  responses (trace o (create_post E C req) d) = [(201, VString "Post created successfully.")]
  /\ responds_after_persist 0 (trace o (create_post E C req) d) = false.
Proof.
  intros Ht Hd Hread. unfold trace.
  rewrite (create_post_exec E C o req d posts Ht Hd Hread).
  destruct o; split; reflexivity.
Qed.

Lemma delete_post_answers_before_write_settles
    (o : write_outcome) (req : Express.request) (d : disk) (posts : list record)
    (post : record) :
  truthy (Express.param (Express.params req) "id") = true ->
  truthy (Express.id req) = true ->
  read d POST_DATA_PATH = Readable (Collection posts) ->
  List.find (owned_post (Express.param (Express.params req) "id") (Express.id req)) posts
  = Some post ->
  responses (trace o (delete_post req) d) = [(201, VString "Post deleted successfully.")]
  /\ responds_after_persist 0 (trace o (delete_post req) d) = false.
Proof.
  intros Hid Huser Hread Hfind. unfold trace.
  rewrite (delete_post_exec o req d posts Hid Huser Hread). cbv zeta.
  rewrite Hfind. destruct o; split; reflexivity.
Qed.

(** PUT /profile-update is the one handler that waits: whatever the
    request, the disk and the fate of the write, its 200 comes after the
    write has settled. *)
Lemma profile_update_answers_after_write_settles
    (o : write_outcome) (req : Express.request) (d : disk) :
  responds_after_persist 0 (trace o (profile_update req) d) = true.
Proof.
  destruct (read d USER_DATA_PATH) as [err | [message | users]] eqn:Hread.
  - unfold trace, profile_update. cbn [exec app]. rewrite Hread. reflexivity.
  - unfold trace, profile_update. cbn [exec app]. rewrite Hread. reflexivity.
  - unfold trace. rewrite (profile_update_exec o req d users Hread). cbv zeta.
    destruct (failed o); [reflexivity|].
    destruct (List.find _ _); reflexivity.
Qed.

(** C2.  POST /post with a valid body and DELETE /post/p1 by the owner of
    p1 both put the 201 on the wire between the start of the write and
    its settling: the success status goes out while the write is
    unresolved. *)
Theorem success_status_sent_while_write_is_pending :
  trace Written (create_post Sample.engine Sample.at_noon Sample.new_post) Sample.files
  = [ ReadStarted POST_DATA_PATH;
      WriteStarted POST_DATA_PATH
        (Sample.posts ++
           [[ ("id", VString "7c9e6679-7425-40de-944b-e07fc1f90ae7");
              ("title", VString "Hello");
              ("description", VString "a valid description");
              ("date", VString "2024-10-31T12:00:00.000Z");
              ("userId", VString "u1") ]]);
      Responded 201 (VString "Post created successfully.");
      WriteSettled POST_DATA_PATH Written ]
  /\ responds_after_persist 0
       (trace Written (create_post Sample.engine Sample.at_noon Sample.new_post) Sample.files)
     = false
  /\ trace Written (delete_post Sample.delete_p1) Sample.files
     = [ ReadStarted POST_DATA_PATH;
         WriteStarted POST_DATA_PATH [];
         Responded 201 (VString "Post deleted successfully.");
         WriteSettled POST_DATA_PATH Written ]
  /\ responds_after_persist 0 (trace Written (delete_post Sample.delete_p1) Sample.files)
     = false.
Proof.
  repeat split; reflexivity.
Qed.

(** C4, as stated, fails twice.  A write that fails during POST /post is
    answered 201, not 500; and a write that is interrupted during
    PUT /profile-update leaves the users file without the collection it
    held. *)
Lemma failed_write_answered_201_and_file_truncated :
  failed Interrupted = true
  /\ responses
       (trace Interrupted (create_post Sample.engine Sample.at_noon Sample.new_post) Sample.files)
     = [(201, VString "Post created successfully.")]
  /\ responses (trace Interrupted (profile_update Sample.rename) Sample.files)
     = [(500, VString storage_error)]
  /\ read (disk_after Interrupted (profile_update Sample.rename) Sample.files) USER_DATA_PATH
     = Readable (Unparsable "Unexpected end of JSON input")
  /\ read (disk_after Interrupted (profile_update Sample.rename) Sample.files) USER_DATA_PATH
     <> read Sample.files USER_DATA_PATH.
Proof.
  repeat split; try reflexivity. discriminate.
Qed.

(** C4, amended.  When the users file has been read and the write then
    fails, PUT /profile-update answers 500 and emits no notification.
    The file is as it was when it could not be opened; when the write is
    interrupted after the file was opened, the file holds a truncated
    text and the posts file is as it was. *)
Theorem profile_update_failed_write_answers_500
    (o : write_outcome) (req : Express.request) (d : disk) (users : list record) :
  read d USER_DATA_PATH = Readable (Collection users) ->
  failed o = true ->
  (exists doc,
      trace o (profile_update req) d =
        [ ReadStarted USER_DATA_PATH; WriteStarted USER_DATA_PATH doc;
          WriteSettled USER_DATA_PATH o; Responded 500 (VString storage_error) ])
  /\ (o = OpenFailed -> disk_after o (profile_update req) d = d)
  /\ (o = Interrupted ->
      read (disk_after o (profile_update req) d) USER_DATA_PATH
      = Readable (Unparsable "Unexpected end of JSON input")
      /\ read (disk_after o (profile_update req) d) POST_DATA_PATH = read d POST_DATA_PATH).
Proof.
  intros Hread Hfailed. unfold trace, disk_after.
  rewrite (profile_update_exec o req d users Hread). cbv zeta. rewrite Hfailed.
  cbn [fst snd app]. split; [eexists; reflexivity|].
  split; intros ->; cbn [commit]; [reflexivity|].
  split; destruct d; reflexivity.
Qed.

Lemma profile_update_failed_write_answers_500_witness :
  exists doc,
    trace OpenFailed (profile_update Sample.rename) Sample.files =
      [ ReadStarted USER_DATA_PATH; WriteStarted USER_DATA_PATH doc;
        WriteSettled USER_DATA_PATH OpenFailed; Responded 500 (VString storage_error) ].
Proof.
  apply (profile_update_failed_write_answers_500 OpenFailed Sample.rename Sample.files
           [Sample.ann] eq_refl eq_refl).
Defined.

Lemma has_field_update_user (id firstName lastName : value) (u : record) (k : string) :
  has_field u k = true ->
  (strict_eq (get u "id") id = true -> k = "firstName" -> is_undefined firstName = false) ->
  (strict_eq (get u "id") id = true -> k = "lastName" -> is_undefined lastName = false) ->
  has_field (update_user id firstName lastName u) k = true.
Proof.
  intros Hu Hfirst Hlast. unfold update_user.
  destruct (strict_eq (get u "id") id); [|exact Hu].
  unfold has_field in *.
  destruct (String.string_dec "lastName" k) as [<- | Hnl].
  - rewrite get_set_same. rewrite (Hlast eq_refl eq_refl). reflexivity.
  - rewrite (get_set_other _ _ _ _ Hnl).
    destruct (String.string_dec "firstName" k) as [<- | Hnf].
    + rewrite get_set_same. rewrite (Hfirst eq_refl eq_refl). reflexivity.
    + rewrite (get_set_other _ _ _ _ Hnf). exact Hu.
Qed.

(** C8, as stated, fails: PUT /profile-update with an empty body, by the
    user of a complete record, saves that record without firstName and
    lastName. *)
Lemma empty_profile_update_drops_names :
  responses (trace Written (profile_update Sample.empty_update) Sample.files)
  = [(200, VString "Profile updated successfully.")]
  /\ read (disk_after Written (profile_update Sample.empty_update) Sample.files)
       USER_DATA_PATH
     = Readable (Collection
         [[ ("id", VString "u1"); ("email", VString "ann@x.com");
            ("password", VString "$2b$10$hash") ]])
  /\ has_field Sample.ann "firstName" = true
  /\ has_field [ ("id", VString "u1"); ("email", VString "ann@x.com");
                 ("password", VString "$2b$10$hash") ] "firstName" = false.
Proof.
  repeat split; reflexivity.
Qed.

(** C8, amended.  PUT /profile-update saves, for every user record it
    loaded, a record at the same position in which every field that was
    present is still present, with one exception: in a record that has
    the caller's id, firstName when the body has no firstName and
    lastName when the body has no lastName.  The records of the other
    users lose nothing whatever the body; id, email and password are
    never lost; a body that carries both names loses nothing. *)
Theorem profile_update_keeps_fields
    (req : Express.request) (d : disk) (users : list record) :
  read d USER_DATA_PATH = Readable (Collection users) ->
  exists saved,
    read (disk_after Written (profile_update req) d) USER_DATA_PATH
    = Readable (Collection saved)
    /\ Forall2
         (fun u u' =>
            forall k, has_field u k = true ->
              (strict_eq (get u "id") (Express.id req) = true -> k = "firstName" ->
               has_field (Express.body req) "firstName" = true) ->
              (strict_eq (get u "id") (Express.id req) = true -> k = "lastName" ->
               has_field (Express.body req) "lastName" = true) ->
              has_field u' k = true)
         users saved.
Proof.
  intros Hread. unfold disk_after.
  rewrite (profile_update_exec Written req d users Hread). cbv zeta.
  cbn [snd commit]. eexists. split; [apply read_store|].
  unfold JSON_stringify. clear Hread.
  induction users as [|u users IH]; cbn [List.map]; constructor; [|exact IH].
  intros k Hk Hfirst Hlast. apply has_field_record_to_json.
  apply has_field_update_user; [exact Hk | |].
  - intros Hid Heq. apply negb_true_iff. apply (Hfirst Hid Heq).
  - intros Hid Heq. apply negb_true_iff. apply (Hlast Hid Heq).
Qed.

(** An empty body by the caller u1 takes the names of u1 away and leaves
    those of the other user in place. *)
Lemma profile_update_keeps_fields_witness :
  exists saved,
    read (disk_after Written (profile_update Sample.empty_update) Odd.two_users)
      USER_DATA_PATH
    = Readable (Collection saved)
    /\ Forall2
         (fun u u' =>
            forall k, has_field u k = true ->
              (strict_eq (get u "id") (Express.id Sample.empty_update) = true ->
               k = "firstName" ->
               has_field (Express.body Sample.empty_update) "firstName" = true) ->
              (strict_eq (get u "id") (Express.id Sample.empty_update) = true ->
               k = "lastName" ->
               has_field (Express.body Sample.empty_update) "lastName" = true) ->
              has_field u' k = true)
         [Sample.ann; Odd.zoe] saved.
Proof.
  apply (profile_update_keeps_fields Sample.empty_update Odd.two_users
           [Sample.ann; Odd.zoe] eq_refl).
Defined.

(* ================================================================== *)
(** * The scenarios of the spec *)
(* ================================================================== *)

(** Saving a collection and loading it again gives the collection as
    JSON prints it, which is the collection itself when it is canonical. *)
Lemma save_then_load (d : disk) (p : path) (rs : list record) :
  readDataFromFile (commit d p (JSON_stringify rs) Written) p = inl (JSON_stringify rs)
  /\ (canonical_collection rs = true ->
      readDataFromFile (commit d p (JSON_stringify rs) Written) p = inl rs).
Proof.
  unfold readDataFromFile. cbn [commit]. rewrite read_store. split; [reflexivity|].
  intros H. rewrite (JSON_stringify_canonical rs H). reflexivity.
Qed.

(** "create a post with title "Hi" (2 chars) -> 400" *)
Example scenario_title_too_short :
  responses (trace Written (create_post Sample.engine Sample.at_noon Sample.short_title)
               Sample.files)
  = [(400, VString "Title is required and should be at least 3 characters long.")].
Proof. reflexivity. Qed.

(** "with title "Hello" and description "short" (5 chars) -> 400" *)
Example scenario_description_too_short :
  responses
    (trace Written
       (create_post Sample.engine Sample.at_noon
          (Sample.request [] [("title", VString "Hello"); ("description", VString "short")]
             (VString "u1")))
       Sample.files)
  = [(400, VString "Description is required and should be at least 10 characters long.")].
Proof. reflexivity. Qed.

(** "with title "Hello" and description "a valid description" -> 201 and
    the post appears in a subsequent GET /post for that user" *)
Example scenario_created_post_is_listed :
  let d := disk_after Written (create_post Sample.engine Sample.at_noon Sample.new_post)
             Sample.files in
  responses (trace Written (create_post Sample.engine Sample.at_noon Sample.new_post)
               Sample.files)
  = [(201, VString "Post created successfully.")]
  /\ responses (trace Written (get_post Sample.engine Sample.new_post) d)
     = [(200,
         VArray
           [ VObject [ ("title", VString "Hello");
                       ("description", VString "a valid description");
                       ("date", VString "2024-10-31T09:00:00.000Z");
                       ("authorName", VString "Ann Lee") ];
             VObject [ ("title", VString "Hello");
                       ("description", VString "a valid description");
                       ("date", VString "2024-10-31T12:00:00.000Z");
                       ("authorName", VString "Ann Lee") ] ])].
Proof. split; reflexivity. Qed.

(* ================================================================== *)
(** * Further properties of the handlers *)
(* ================================================================== *)

(** Puts the known content of a file in place of the file. *)
Ltac known_file d H :=
  destruct d; cbn [read users_json posts_json] in H; subst.

(** Splits a goal on every test a handler makes on its way. *)
Ltac handler_cases :=
  repeat (cbn [exec app fst snd negb JSON_parse readDataFromFile
               read users_json posts_json] in *;
          match goal with
          | |- context [match ?x with _ => _ end] =>
              lazymatch x with
              | context [match _ with _ => _ end] => fail
              | _ => destruct x eqn:?
              end
          end).

Lemma responses_app (t1 t2 : list event) :
  responses (t1 ++ t2) = responses t1 ++ responses t2.
Proof.
  induction t1 as [|e t1 IH]; [reflexivity|].
  destruct e; cbn [app responses]; rewrite IH; reflexivity.
Qed.

Lemma nonempty_string_truthy (s : string) (n : nat) :
  Nat.ltb (String.length s) (S n) = false -> truthy (VString s) = true.
Proof.
  destruct s; cbn; [discriminate | reflexivity].
Qed.


Lemma string_guard (E : engine) (s : string) (n : nat) :
  too_short E (VString s) (S n) = Some (Nat.ltb (String.length s) (S n)).
Proof.
  unfold too_short. cbn [length_lt].
  destruct (Nat.ltb (String.length s) (S n)) eqn:Hlt.
  - destruct (negb (truthy (VString s))); reflexivity.
  - rewrite (nonempty_string_truthy s n Hlt). reflexivity.
Qed.

Lemma long_enough (E : engine) (s : string) (n : nat) :
  S n <= String.length s -> too_short E (VString s) (S n) = Some false.
Proof.
  intros H. rewrite string_guard. f_equal. apply Nat.ltb_ge. exact H.
Qed.

(** X1.  No request gets two responses: each of the five handlers sends
    at most one, whatever the request, the files and the fate of the
    write. *)
Theorem at_most_one_response
    (E : engine) (C : clock) (K : crypto) (o : write_outcome)
    (req : Express.request) (d : disk) :
  List.length (responses (trace o (create_post E C req) d)) <= 1
  /\ List.length (responses (trace o (delete_post req) d)) <= 1
  /\ List.length (responses (trace o (profile_update req) d)) <= 1
  /\ List.length (responses (trace o (get_post E req) d)) <= 1
  /\ List.length (responses (trace o (login K req) d)) <= 1.
Proof.
  repeat split.
  - unfold trace, create_post. handler_cases; destruct o; cbn; lia.
  - unfold trace, delete_post. handler_cases; destruct o; cbn; lia.
  - unfold trace, profile_update. handler_cases; cbn; lia.
  - unfold trace, get_post. handler_cases; cbn; lia.
  - unfold trace, login. handler_cases; cbn; lia.
Qed.

(** X2.  POST /post and DELETE /post/:id start a write of the posts file
    exactly when they answer 201; with any other answer, or none, the
    disk is as it was. *)
Theorem posts_written_exactly_with_201
    (E : engine) (C : clock) (o : write_outcome) (req : Express.request) (d : disk) :
  let written := fun h =>
    exists doc, In (WriteStarted POST_DATA_PATH doc) (trace o h d) in
  let answers_201 := fun h => In 201 (List.map fst (responses (trace o h d))) in
  (written (create_post E C req) <-> answers_201 (create_post E C req))
  /\ (~ answers_201 (create_post E C req) -> disk_after o (create_post E C req) d = d)
  /\ (written (delete_post req) <-> answers_201 (delete_post req))
  /\ (~ answers_201 (delete_post req) -> disk_after o (delete_post req) d = d).
Proof.
  cbv zeta. unfold trace, disk_after. repeat split.
  - unfold create_post. handler_cases; cbn; intros [doc H]; intuition discriminate.
  - unfold create_post. handler_cases; cbn; intros H; try (intuition discriminate).
    eexists. right. left. reflexivity.
  - unfold create_post. handler_cases; cbn; intros H; try reflexivity.
    exfalso. apply H. left. reflexivity.
  - unfold delete_post. handler_cases; cbn; intros [doc H]; intuition discriminate.
  - unfold delete_post. handler_cases; cbn; intros H; try (intuition discriminate).
    eexists. right. left. reflexivity.
  - unfold delete_post. handler_cases; cbn; intros H; try reflexivity.
    exfalso. apply H. left. reflexivity.
Qed.

(** X3.  Each handler keeps to its own file: POST /post and
    DELETE /post/:id never change the users file, PUT /profile-update
    never changes the posts file, GET /post and POST /login change
    nothing at all. *)
Theorem handlers_keep_to_their_file
    (E : engine) (C : clock) (K : crypto) (o : write_outcome)
    (req : Express.request) (d : disk) :
  read (disk_after o (create_post E C req) d) USER_DATA_PATH = read d USER_DATA_PATH
  /\ read (disk_after o (delete_post req) d) USER_DATA_PATH = read d USER_DATA_PATH
  /\ read (disk_after o (profile_update req) d) POST_DATA_PATH = read d POST_DATA_PATH
  /\ disk_after o (get_post E req) d = d
  /\ disk_after o (login K req) d = d.
Proof.
  unfold disk_after. repeat split.
  - unfold create_post. handler_cases; destruct o, d; reflexivity.
  - unfold delete_post. handler_cases; destruct o, d; reflexivity.
  - unfold profile_update. handler_cases; destruct o, d; reflexivity.
  - unfold get_post. handler_cases; reflexivity.
  - unfold login. handler_cases; reflexivity.
Qed.

(** X4.  A file that is not JSON leaves the request unanswered:
    [JSON.parse] throws inside the 'end' callback, where nothing catches
    it.  The only response such a request can get is a 400 decided
    before the read, and the file is left as it is. *)
Theorem unparsable_file_gets_no_answer
    (E : engine) (C : clock) (K : crypto) (o : write_outcome)
    (req : Express.request) (d : disk) (message : string) :
  (read d POST_DATA_PATH = Readable (Unparsable message) ->
   (forall status b,
       In (status, b) (responses (trace o (create_post E C req) d)
                       ++ responses (trace o (delete_post req) d)) -> status = 400)
   /\ disk_after o (create_post E C req) d = d
   /\ disk_after o (delete_post req) d = d)
  /\
  (read d USER_DATA_PATH = Readable (Unparsable message) ->
   trace o (profile_update req) d = [ReadStarted USER_DATA_PATH; Uncaught]
   /\ disk_after o (profile_update req) d = d
   /\ (forall status b,
          In (status, b) (responses (trace o (login K req) d)) -> status = 400)).
Proof.
  unfold trace, disk_after. split; intros Hread; known_file d Hread.
  - repeat split.
    + intros status b Hin. apply in_app_or in Hin. destruct Hin as [Hin | Hin]; revert Hin.
      * unfold create_post. handler_cases; cbn; intuition congruence.
      * unfold delete_post. handler_cases; cbn; intuition congruence.
    + unfold create_post. handler_cases; reflexivity.
    + unfold delete_post. handler_cases; reflexivity.
  - repeat split.
    + intros status b. unfold login. handler_cases; cbn; intuition congruence.
Qed.

Lemma unparsable_file_gets_no_answer_witness :
  trace Written (profile_update Sample.rename)
    {| users_json := Readable (Unparsable "Unexpected token"); posts_json := Unreadable "ENOENT" |}
  = [ReadStarted USER_DATA_PATH; Uncaught].
Proof.
  apply (proj2 (unparsable_file_gets_no_answer Sample.engine Sample.at_noon Accounts.toy
                  Written Sample.rename
                  {| users_json := Readable (Unparsable "Unexpected token");
                     posts_json := Unreadable "ENOENT" |} "Unexpected token") eq_refl).
Defined.

(** X5.  When the collection file cannot be read, a request that passes
    the tests the handler makes before the read is answered 500; no
    response other than that 500 or a 400 is sent, and nothing is
    written: no write is started and the disk is as it was.
    PUT /profile-update and POST /login append the text of the
    file-system error to the body they send; POST /post and
    DELETE /post/:id send the fixed message alone. *)
Theorem unreadable_file_is_answered_500
    (E : engine) (C : clock) (K : crypto) (o : write_outcome)
    (req : Express.request) (d : disk) (err : string) :
  (read d POST_DATA_PATH = Unreadable err ->
   (too_short E (get (Express.body req) "title") 3 = Some false ->
    too_short E (get (Express.body req) "description") 10 = Some false ->
    trace o (create_post E C req) d
    = [ReadStarted POST_DATA_PATH; Responded 500 (VString storage_error)])
   /\ (truthy (Express.param (Express.params req) "id") = true ->
       truthy (Express.id req) = true ->
       trace o (delete_post req) d
       = [ReadStarted POST_DATA_PATH; Responded 500 (VString storage_error)])
   /\ (forall status b,
          In (status, b) (responses (trace o (create_post E C req) d)
                          ++ responses (trace o (delete_post req) d)) ->
          status = 400 \/ (status, b) = (500, VString storage_error))
   /\ (forall p doc,
          ~ In (WriteStarted p doc) (trace o (create_post E C req) d
                                     ++ trace o (delete_post req) d))
   /\ disk_after o (create_post E C req) d = d
   /\ disk_after o (delete_post req) d = d)
  /\
  (read d USER_DATA_PATH = Unreadable err ->
   trace o (profile_update req) d
   = [ReadStarted USER_DATA_PATH; Responded 500 (VString (storage_error ++ err))]
   /\ (truthy (get (Express.body req) "email") = true ->
       truthy (get (Express.body req) "password") = true ->
       trace o (login K req) d
       = [ReadStarted USER_DATA_PATH; Responded 500 (VString (storage_error ++ err))])
   /\ (forall status b,
          In (status, b) (responses (trace o (login K req) d)) ->
          status = 400 \/ (status, b) = (500, VString (storage_error ++ err)))
   /\ (forall p doc, ~ In (WriteStarted p doc) (trace o (login K req) d))
   /\ disk_after o (profile_update req) d = d
   /\ disk_after o (login K req) d = d).
Proof.
  unfold trace, disk_after. split; intros Hread; known_file d Hread.
  - split; [|split; [|split; [|split; [|split]]]].
    + intros Ht Hd. unfold create_post. rewrite Ht, Hd. reflexivity.
    + intros Hid Huser. unfold delete_post. rewrite Hid, Huser. reflexivity.
    + intros status b Hin. apply in_app_or in Hin. destruct Hin as [Hin | Hin]; revert Hin.
      * unfold create_post. handler_cases; cbn; intuition congruence.
      * unfold delete_post. handler_cases; cbn; intuition congruence.
    + intros p doc Hin. apply in_app_or in Hin. destruct Hin as [Hin | Hin]; revert Hin.
      * unfold create_post. handler_cases; cbn; intuition discriminate.
      * unfold delete_post. handler_cases; cbn; intuition discriminate.
    + unfold create_post. handler_cases; reflexivity.
    + unfold delete_post. handler_cases; reflexivity.
  - split; [|split; [|split; [|split; [|split]]]].
    + reflexivity.
    + intros He Hp. unfold login. rewrite He, Hp. reflexivity.
    + intros status b. unfold login. handler_cases; cbn; intuition congruence.
    + intros p doc. unfold login. handler_cases; cbn; intuition discriminate.
    + reflexivity.
    + unfold login. handler_cases; reflexivity.
Qed.

Lemma unreadable_file_is_answered_500_witness :
  trace Written (create_post Sample.engine Sample.at_noon Sample.new_post)
    {| users_json := Unreadable "ENOENT: no such file"; posts_json := Unreadable "ENOENT" |}
  = [ReadStarted POST_DATA_PATH;
     Responded 500 (VString "An error occurred. Please try again later.")]
  /\ trace Written (profile_update Sample.rename)
       {| users_json := Unreadable "ENOENT: no such file"; posts_json := Unreadable "ENOENT" |}
     = [ReadStarted USER_DATA_PATH;
        Responded 500
          (VString "An error occurred. Please try again later.ENOENT: no such file")].
Proof.
  split.
  - apply (proj1 (proj1 (unreadable_file_is_answered_500 Sample.engine Sample.at_noon
                           Accounts.toy Written Sample.new_post
                           {| users_json := Unreadable "ENOENT: no such file";
                              posts_json := Unreadable "ENOENT" |} "ENOENT") eq_refl)
             eq_refl eq_refl).
  - apply (proj1 (proj2 (unreadable_file_is_answered_500 Sample.engine Sample.at_noon
                           Accounts.toy Written Sample.rename
                           {| users_json := Unreadable "ENOENT: no such file";
                              posts_json := Unreadable "ENOENT" |} "ENOENT: no such file")
                    eq_refl)).
Defined.

(** X6.  For a title and a description that are strings, and a posts
    file that holds a collection, POST /post answers 201 exactly when
    the title has at least 3 characters and the description at least 10:
    the bounds are inclusive. *)
Theorem create_post_accepts_from_3_and_10
    (E : engine) (C : clock) (o : write_outcome) (req : Express.request) (d : disk)
    (posts : list record) (title description : string) :
  get (Express.body req) "title" = VString title ->
  get (Express.body req) "description" = VString description ->
  read d POST_DATA_PATH = Readable (Collection posts) ->
  (responses (trace o (create_post E C req) d)
   = [(201, VString "Post created successfully.")]
   <-> 3 <= String.length title /\ 10 <= String.length description).
Proof.
  intros Ht Hd Hread.
  pose proof (string_guard E title 2) as Gt. pose proof (string_guard E description 9) as Gd.
  destruct (Nat.ltb_spec (String.length title) 3) as [Hst | Hst].
  - split; [|lia]. unfold trace, create_post. rewrite Ht, Gt. cbn. discriminate.
  - destruct (Nat.ltb_spec (String.length description) 10) as [Hsd | Hsd].
    + split; [|lia]. unfold trace, create_post. rewrite Ht, Hd, Gt, Gd. cbn. discriminate.
    + split; [intros _; lia|]. intros _. unfold trace.
      rewrite (create_post_exec E C o req d posts); rewrite ?Ht, ?Hd; auto.
      destruct o; reflexivity.
Qed.

Lemma create_post_accepts_from_3_and_10_witness :
  responses (trace Written (create_post Sample.engine Sample.at_noon Sample.new_post)
               Sample.files)
  = [(201, VString "Post created successfully.")].
Proof.
  apply (create_post_accepts_from_3_and_10 Sample.engine Sample.at_noon Written
           Sample.new_post Sample.files Sample.posts "Hello" "a valid description"
           eq_refl eq_refl eq_refl).
  cbn. lia.
Defined.

Lemma create_post_disk_after
    (E : engine) (C : clock) (req : Express.request) (d : disk)
    (posts : list record) (title description : string) :
  get (Express.body req) "title" = VString title ->
  get (Express.body req) "description" = VString description ->
  3 <= String.length title -> 10 <= String.length description ->
  read d POST_DATA_PATH = Readable (Collection posts) ->
  disk_after Written (create_post E C req) d
  = store d POST_DATA_PATH
      (Readable (Collection
         (JSON_stringify posts ++
          [[ ("id", VString (uuidv4 C)); ("title", VString title);
             ("description", VString description); ("date", VString (now C)) ]
           ++ record_to_json [("userId", Express.id req)]]))).
Proof.
  intros Ht Hd Hlt Hld Hread. unfold disk_after.
  rewrite (create_post_exec E C Written req d posts); rewrite ?Ht, ?Hd;
    try (apply long_enough; assumption); try exact Hread.
  cbv zeta. cbn [snd commit].
  unfold JSON_stringify. rewrite map_app. reflexivity.
Qed.

Lemma create_post_appends_one_record_aux
    (E : engine) (C : clock) (req : Express.request) (d : disk)
    (posts : list record) (title description : string) :
  get (Express.body req) "title" = VString title ->
  get (Express.body req) "description" = VString description ->
  3 <= String.length title -> 10 <= String.length description ->
  read d POST_DATA_PATH = Readable (Collection posts) ->
  read (disk_after Written (create_post E C req) d) POST_DATA_PATH
  = Readable (Collection
      (JSON_stringify posts ++
       [[ ("id", VString (uuidv4 C)); ("title", VString title);
          ("description", VString description); ("date", VString (now C)) ]
        ++ record_to_json [("userId", Express.id req)]])).
Proof.
  intros Ht Hd Hlt Hld Hread.
  rewrite (create_post_disk_after E C req d posts title description Ht Hd Hlt Hld Hread).
  apply read_store.
Qed.

(** X7.  A POST /post that goes through appends exactly one record to
    the posts file: the records that were there are written back in
    their order, as JSON prints them (hence identical when the file was
    canonical), followed by the new post with the fresh id, the title and
    description of the body, the current date and the caller's id. *)
Theorem create_post_appends_one_record
    (E : engine) (C : clock) (req : Express.request) (d : disk)
    (posts : list record) (title description : string) :
  get (Express.body req) "title" = VString title ->
  get (Express.body req) "description" = VString description ->
  3 <= String.length title -> 10 <= String.length description ->
  read d POST_DATA_PATH = Readable (Collection posts) ->
  let post :=
    [ ("id", VString (uuidv4 C)); ("title", VString title);
      ("description", VString description); ("date", VString (now C)) ]
    ++ record_to_json [("userId", Express.id req)] in
  read (disk_after Written (create_post E C req) d) POST_DATA_PATH
  = Readable (Collection (JSON_stringify posts ++ [post]))
  /\ (canonical_collection posts = true ->
      read (disk_after Written (create_post E C req) d) POST_DATA_PATH
      = Readable (Collection (posts ++ [post]))).
Proof.
  intros Ht Hd Hlt Hld Hread post.
  assert (Hsaved : read (disk_after Written (create_post E C req) d) POST_DATA_PATH
                   = Readable (Collection (JSON_stringify posts ++ [post]))).
  { apply create_post_appends_one_record_aux; assumption. }
  split; [exact Hsaved|].
  intros Hcanon. rewrite Hsaved, (JSON_stringify_canonical posts Hcanon). reflexivity.
Qed.

Lemma create_post_appends_one_record_witness :
  read (disk_after Written (create_post Sample.engine Sample.at_noon Sample.new_post)
          Sample.files) POST_DATA_PATH
  = Readable (Collection
      (Sample.posts ++
       [[ ("id", VString "7c9e6679-7425-40de-944b-e07fc1f90ae7");
          ("title", VString "Hello"); ("description", VString "a valid description");
          ("date", VString "2024-10-31T12:00:00.000Z"); ("userId", VString "u1") ]])).
Proof.
  apply (create_post_appends_one_record Sample.engine Sample.at_noon Sample.new_post
           Sample.files Sample.posts "Hello" "a valid description" eq_refl eq_refl).
  - cbn. lia.
  - cbn. lia.
  - reflexivity.
  - reflexivity.
Defined.

(** X8.  POST /post does not ask for a caller: when the middleware left
    no id on the request, a valid body is still answered 201 and the
    post is saved without a userId. *)
Theorem create_post_without_caller_saves_ownerless_post
    (E : engine) (C : clock) (req : Express.request) (d : disk)
    (posts : list record) (title description : string) :
  Express.id req = VUndefined ->
  get (Express.body req) "title" = VString title ->
  get (Express.body req) "description" = VString description ->
  3 <= String.length title -> 10 <= String.length description ->
  read d POST_DATA_PATH = Readable (Collection posts) ->
  responses (trace Written (create_post E C req) d)
  = [(201, VString "Post created successfully.")]
  /\ read (disk_after Written (create_post E C req) d) POST_DATA_PATH
     = Readable (Collection
         (JSON_stringify posts ++
          [[ ("id", VString (uuidv4 C)); ("title", VString title);
             ("description", VString description); ("date", VString (now C)) ]])).
Proof.
  intros Hid Ht Hd Hlt Hld Hread. unfold trace, disk_after.
  rewrite (create_post_exec E C Written req d posts); rewrite ?Ht, ?Hd;
    try (apply long_enough; assumption); try exact Hread.
  cbv zeta. cbn [fst snd commit]. rewrite read_store, Hid. split; [reflexivity|].
  unfold JSON_stringify. rewrite map_app. reflexivity.
Qed.

Lemma create_post_without_caller_saves_ownerless_post_witness :
  responses
    (trace Written
       (create_post Sample.engine Sample.at_noon
          (Sample.request [] (Express.body Sample.new_post) VUndefined))
       Sample.files)
  = [(201, VString "Post created successfully.")].
Proof.
  apply (create_post_without_caller_saves_ownerless_post Sample.engine Sample.at_noon
           (Sample.request [] (Express.body Sample.new_post) VUndefined)
           Sample.files Sample.posts "Hello" "a valid description" eq_refl eq_refl eq_refl).
  - cbn. lia.
  - cbn. lia.
  - reflexivity.
Defined.

(** X9.  The length test of POST /post only bites on values that have a
    length: a title that is [true] or a number other than 0 and NaN
    passes it, whatever its size. *)
Theorem create_post_accepts_title_without_length
    (E : engine) (C : clock) (o : write_outcome) (req : Express.request) (d : disk)
    (posts : list record) (description : string) :
  (get (Express.body req) "title" = VBool true
   \/ exists x, get (Express.body req) "title" = VNumber x
                /\ truthy (VNumber x) = true) ->
  get (Express.body req) "description" = VString description ->
  10 <= String.length description ->
  read d POST_DATA_PATH = Readable (Collection posts) ->
  responses (trace o (create_post E C req) d)
  = [(201, VString "Post created successfully.")].
Proof.
  intros Htitle Hd Hld Hread. unfold trace.
  rewrite (create_post_exec E C o req d posts).
  - destruct o; reflexivity.
  - destruct Htitle as [-> | [x [-> Hx]]]; [reflexivity|].
    unfold too_short. rewrite Hx. reflexivity.
  - rewrite Hd. apply long_enough. exact Hld.
  - exact Hread.
Qed.

Lemma create_post_accepts_title_without_length_witness :
  responses
    (trace Written
       (create_post Sample.engine Sample.at_noon
          (Sample.request []
             [("title", VNumber 7); ("description", VString "a valid description")]
             (VString "u1")))
       Sample.files)
  = [(201, VString "Post created successfully.")].
Proof.
  apply (create_post_accepts_title_without_length Sample.engine Sample.at_noon Written
           (Sample.request []
              [("title", VNumber 7); ("description", VString "a valid description")]
              (VString "u1"))
           Sample.files Sample.posts "a valid description").
  - right. exists 7%float. split; reflexivity.
  - reflexivity.
  - cbn. lia.
  - reflexivity.
Defined.

(** POST /post and DELETE /post/:id decide every 400 before they
    touch a file: a request answered 400 has started no read and no
    write, and the disk is as it was. *)
Theorem posts_400_decided_before_any_file_access
    (E : engine) (C : clock) (o : write_outcome) (req : Express.request) (d : disk) :
  (In 400 (List.map fst (responses (trace o (create_post E C req) d))) ->
   existsb touches_file (trace o (create_post E C req) d) = false
   /\ disk_after o (create_post E C req) d = d)
  /\
  (In 400 (List.map fst (responses (trace o (delete_post req) d))) ->
   existsb touches_file (trace o (delete_post req) d) = false
   /\ disk_after o (delete_post req) d = d).
Proof.
  unfold trace, disk_after. split.
  - unfold create_post. handler_cases; destruct o; cbn; intuition lia.
  - unfold delete_post. handler_cases; destruct o; cbn; intuition lia.
Qed.

Lemma posts_400_decided_before_any_file_access_witness :
  existsb touches_file
    (trace Written (create_post Sample.engine Sample.at_noon Sample.short_title) Sample.files)
  = false.
Proof.
  apply (proj1 (posts_400_decided_before_any_file_access Sample.engine Sample.at_noon
                  Written Sample.short_title Sample.files)).
  cbn. left. reflexivity.
Defined.

Lemma printed_kept_posts_not_owned (id : string) (userId : value) (posts : list record) :
  Forall well_formed posts ->
  List.find (owned_post (VString id) userId)
    (JSON_stringify (List.filter (kept_post (VString id) userId) posts)) = None.
Proof.
  intros Hwf. apply find_none_iff. intros r Hr.
  unfold JSON_stringify in Hr. apply in_map_iff in Hr.
  destruct Hr as [post [<- Hpost]]. apply filter_In in Hpost.
  destruct Hpost as [Hpost Hkept].
  rewrite Forall_forall in Hwf. specialize (Hwf post Hpost).
  unfold owned_post. rewrite (get_record_to_json post "id" Hwf).
  rewrite strict_eq_to_json_string.
  unfold kept_post, strict_neq in Hkept.
  destruct (strict_eq (get post "id") (VString id)); [discriminate | reflexivity].
Qed.


(** X10.  Deleting twice: once DELETE /post/:id has gone through, the
    same request finds nothing to delete and is answered 404, provided
    the objects of the posts file had no repeated property. *)
Theorem delete_post_twice_is_not_found
    (o : write_outcome) (req : Express.request) (d : disk) (posts : list record)
    (post : record) :
  Forall well_formed posts ->
  truthy (Express.param (Express.params req) "id") = true ->
  truthy (Express.id req) = true ->
  read d POST_DATA_PATH = Readable (Collection posts) ->
  List.find (owned_post (Express.param (Express.params req) "id") (Express.id req)) posts
  = Some post ->
  responses (trace o (delete_post req) (disk_after Written (delete_post req) d))
  = [(404, VString "Post not found.")].
Proof.
  intros Hwf Hid Huser Hread Hfind.
  assert (Hsaved : read (disk_after Written (delete_post req) d) POST_DATA_PATH
                   = Readable (Collection (JSON_stringify
                       (List.filter
                          (kept_post (Express.param (Express.params req) "id")
                             (Express.id req)) posts)))).
  { unfold disk_after. rewrite (delete_post_exec Written req d posts Hid Huser Hread).
    cbv zeta. rewrite Hfind. cbn [snd commit]. apply read_store. }
  unfold trace. rewrite (delete_post_exec o req _ _ Hid Huser Hsaved). cbv zeta.
  destruct (param_truthy_is_string _ _ Hid) as [s Hs]. rewrite Hs.
  rewrite (printed_kept_posts_not_owned s (Express.id req) posts Hwf). reflexivity.
Qed.

Lemma delete_post_twice_is_not_found_witness :
  responses (trace Written (delete_post Sample.delete_p1)
               (disk_after Written (delete_post Sample.delete_p1) Sample.files))
  = [(404, VString "Post not found.")].
Proof.
  apply (delete_post_twice_is_not_found Written Sample.delete_p1 Sample.files Sample.posts
           (Sample.post "p1" "Hello" "u1")).
  - repeat constructor; cbn; intuition discriminate.
  - reflexivity.
  - reflexivity.
  - reflexivity.
  - reflexivity.
Defined.



(** The projection of GET /post goes through when both names of the
    author print; otherwise it throws on the first post it meets, and so
    goes through only when the caller has no post. *)
Lemma projection_cases (E : engine) (user : option record) (owned : list record) :
  map_or_throw (post_response E user) owned =
    match to_string E (optional_get user "firstName"),
          to_string E (optional_get user "lastName") with
    | Some firstName, Some lastName =>
        Some (List.map
                (fun post =>
                   [ ("title", get post "title");
                     ("description", get post "description");
                     ("date", get post "date");
                     ("authorName", VString (firstName ++ " " ++ lastName)) ])
                owned)
    | _, _ => match owned with [] => Some [] | _ :: _ => None end
    end.
Proof.
  destruct (to_string E (optional_get user "firstName")) as [f|] eqn:Hf;
    [destruct (to_string E (optional_get user "lastName")) as [l|] eqn:Hl|].
  - apply map_or_throw_total. intros post. unfold post_response. rewrite Hf, Hl.
    reflexivity.
  - destruct owned as [|post owned]; [reflexivity|].
    cbn [map_or_throw]. unfold post_response. rewrite Hf, Hl. reflexivity.
  - destruct owned as [|post owned]; [reflexivity|].
    cbn [map_or_throw]. unfold post_response. rewrite Hf. reflexivity.
Qed.

Lemma get_post_exec (E : engine) (o : write_outcome) (req : Express.request) (d : disk)
    (posts users : list record) :
  read d POST_DATA_PATH = Readable (Collection posts) ->
  read d USER_DATA_PATH = Readable (Collection users) ->
  exec o (get_post E req) d =
    ([ReadStarted POST_DATA_PATH; ReadStarted USER_DATA_PATH;
      match
        map_or_throw
          (post_response E
             (List.find (fun user => strict_eq (get user "id") (Express.userId req)) users))
          (List.filter (fun post => strict_eq (get post "userId") (Express.userId req))
             posts)
      with
      | Some postResponse => Responded 200 (VArray (List.map VObject postResponse))
      | None => Responded 500 (VString (storage_error ++ type_error))
      end],
     d).
Proof.
  intros Hposts Husers. unfold get_post.
  cbn [exec]. unfold readDataFromFile at 1. rewrite Hposts.
  cbn [exec]. unfold readDataFromFile. rewrite Husers.
  destruct (map_or_throw _ _); reflexivity.
Qed.

Lemma read_store_other (d : disk) (p q : path) (f : file) :
  p <> q -> read (store d p f) q = read d q.
Proof. destruct p, q; intros H; try reflexivity; contradiction. Qed.

(** X12.  What POST /post creates, GET /post lists: after a post went
    through for a caller whose id is a string, and when the names of the
    caller's user record print, the list that GET /post sends to that
    caller ends with the new post, with its title, its description and
    its date; when the posts file was canonical, what comes before is
    the list the caller got before.  When a name of the caller does not
    print, the list now has a post to print it on, and GET /post answers
    500. *)
Theorem created_post_is_listed_last
    (E : engine) (C : clock) (o : write_outcome) (req : Express.request) (d : disk)
    (posts users : list record) (title description caller : string) :
  Express.id req = VString caller ->
  get (Express.body req) "title" = VString title ->
  get (Express.body req) "description" = VString description ->
  3 <= String.length title -> 10 <= String.length description ->
  read d POST_DATA_PATH = Readable (Collection posts) ->
  read d USER_DATA_PATH = Readable (Collection users) ->
  let list_for := fun disk =>
    responses
      (trace o
         (get_post E
            {| Express.params := []; Express.body := [];
               Express.id := VString caller; Express.userId := VString caller |})
         disk) in
  let author := List.find (fun user => strict_eq (get user "id") (VString caller)) users in
  (forall firstName lastName,
      to_string E (optional_get author "firstName") = Some firstName ->
      to_string E (optional_get author "lastName") = Some lastName ->
      exists before,
        list_for (disk_after Written (create_post E C req) d)
        = [(200,
            VArray
              (before ++
               [VObject
                  [ ("title", VString title); ("description", VString description);
                    ("date", VString (now C));
                    ("authorName", VString (firstName ++ " " ++ lastName)) ]]))]
        /\ (canonical_collection posts = true -> list_for d = [(200, VArray before)]))
  /\ (to_string E (optional_get author "firstName") = None
      \/ to_string E (optional_get author "lastName") = None ->
      list_for (disk_after Written (create_post E C req) d)
      = [(500, VString (storage_error ++ type_error))]).
Proof.
  intros Hcaller Ht Hd Hlt Hld Hposts Husers list_for author.
  pose proof (create_post_disk_after E C req d posts title description
                Ht Hd Hlt Hld Hposts) as Hdisk.
  rewrite Hcaller in Hdisk. cbn [record_to_json is_undefined to_json app] in Hdisk.
  assert (Hlist :
    list_for (disk_after Written (create_post E C req) d)
    = responses
        [ReadStarted POST_DATA_PATH; ReadStarted USER_DATA_PATH;
         match
           map_or_throw (post_response E author)
             (List.filter (fun post => strict_eq (get post "userId") (VString caller))
                (JSON_stringify posts)
              ++ [[ ("id", VString (uuidv4 C)); ("title", VString title);
                    ("description", VString description); ("date", VString (now C));
                    ("userId", VString caller) ]])
         with
         | Some postResponse => Responded 200 (VArray (List.map VObject postResponse))
         | None => Responded 500 (VString (storage_error ++ type_error))
         end]).
  { unfold list_for, trace. rewrite Hdisk.
    erewrite get_post_exec;
      [ | apply read_store
        | rewrite read_store_other; [exact Husers | discriminate] ].
    cbn [fst Express.userId]. fold author.
    rewrite filter_app. cbn [List.filter get String.eqb Ascii.eqb Bool.eqb].
    cbn [strict_eq]. rewrite String.eqb_refl. reflexivity. }
  split.
  - intros firstName lastName Hfirst Hlast.
    exists (List.map VObject
              (List.map
                 (fun post =>
                    [ ("title", get post "title");
                      ("description", get post "description");
                      ("date", get post "date");
                      ("authorName", VString (firstName ++ " " ++ lastName)) ])
                 (List.filter (fun post => strict_eq (get post "userId") (VString caller))
                    (JSON_stringify posts)))).
    split.
    + rewrite Hlist, projection_cases, Hfirst, Hlast.
      cbn [responses]. rewrite !map_app. reflexivity.
    + intros Hcanon. unfold list_for, trace.
      rewrite (get_post_exec E o _ d posts users Hposts Husers).
      cbn [fst Express.userId]. fold author.
      rewrite projection_cases, Hfirst, Hlast.
      rewrite (JSON_stringify_canonical posts Hcanon). reflexivity.
  - intros Hnone. rewrite Hlist, projection_cases.
    destruct (List.filter _ (JSON_stringify posts)) as [|p ps];
      destruct Hnone as [-> | Hnone]; cbn [app]; try reflexivity;
      destruct (to_string E (optional_get author "firstName")); rewrite ?Hnone;
      reflexivity.
Qed.

Lemma created_post_is_listed_last_witness :
  (exists before,
      responses
        (trace Written
           (get_post Sample.engine
              {| Express.params := []; Express.body := [];
                 Express.id := VString "u1"; Express.userId := VString "u1" |})
           (disk_after Written (create_post Sample.engine Sample.at_noon Sample.new_post)
              Sample.files))
      = [(200,
          VArray
            (before ++
             [VObject
                [ ("title", VString "Hello");
                  ("description", VString "a valid description");
                  ("date", VString "2024-10-31T12:00:00.000Z");
                  ("authorName", VString "Ann Lee") ]]))])
  /\ responses
       (trace Written
          (get_post Sample.engine
             {| Express.params := []; Express.body := [];
                Express.id := VString "u1"; Express.userId := VString "u1" |})
          (disk_after Written (create_post Sample.engine Sample.at_noon Sample.new_post)
             Odd.files))
     = [(500, VString (storage_error ++ type_error))].
Proof.
  split.
  - destruct (created_post_is_listed_last Sample.engine Sample.at_noon Written
                Sample.new_post Sample.files Sample.posts [Sample.ann]
                "Hello" "a valid description" "u1" eq_refl eq_refl eq_refl)
      as [Hlisted _].
    + cbn. lia.
    + cbn. lia.
    + reflexivity.
    + reflexivity.
    + destruct (Hlisted "Ann" "Lee" eq_refl eq_refl) as [before [H _]].
      exists before. exact H.
  - destruct (created_post_is_listed_last Sample.engine Sample.at_noon Written
                Sample.new_post Odd.files Sample.posts [Odd.odd_ann]
                "Hello" "a valid description" "u1" eq_refl eq_refl eq_refl)
      as [_ Hthrows].
    + cbn. lia.
    + cbn. lia.
    + reflexivity.
    + reflexivity.
    + apply Hthrows. left. reflexivity.
Defined.

Lemma get_update_user_other (id firstName lastName : value) (u : record) (k : string) :
  k <> "firstName" -> k <> "lastName" ->
  get (update_user id firstName lastName u) k = get u k.
Proof.
  intros Hf Hl. unfold update_user.
  destruct (strict_eq (get u "id") id); [|reflexivity].
  rewrite get_set_other by congruence. rewrite get_set_other by congruence. reflexivity.
Qed.

Lemma find_map_stable {A : Type} (p : A -> bool) (f : A -> A) (l : list A) :
  (forall x, p (f x) = p x) ->
  List.find p (List.map f l) = option_map f (List.find p l).
Proof.
  intros H. induction l as [|a l IH]; [reflexivity|].
  cbn [List.map List.find]. rewrite H. destruct (p a); [reflexivity | exact IH].
Qed.

Lemma find_updated_user (id firstName lastName : value) (users : list record) :
  List.find (fun u => strict_eq (get u "id") id)
    (List.map (update_user id firstName lastName) users)
  = option_map (update_user id firstName lastName)
      (List.find (fun u => strict_eq (get u "id") id) users).
Proof.
  apply (find_map_stable (fun u => strict_eq (get u "id") id)).
  intros u. rewrite get_update_user_other by discriminate. reflexivity.
Qed.

(** X13.  A PUT /profile-update by a known caller whose write goes
    through is answered 200 after one notification, addressed to the
    email stored in the first user record that has the caller's id; the
    request body cannot redirect it. *)
Theorem profile_update_notifies_stored_email
    (req : Express.request) (d : disk) (users : list record) (user : record) :
  read d USER_DATA_PATH = Readable (Collection users) ->
  List.find (fun u => strict_eq (get u "id") (Express.id req)) users = Some user ->
  exists doc,
    trace Written (profile_update req) d
    = [ ReadStarted USER_DATA_PATH; WriteStarted USER_DATA_PATH doc;
        WriteSettled USER_DATA_PATH Written;
        Emitted "profileUpdated" (get user "email");
        Responded 200 (VString "Profile updated successfully.") ].
Proof.
  intros Hread Hfind. unfold trace.
  rewrite (profile_update_exec Written req d users Hread). cbv zeta.
  rewrite find_updated_user, Hfind. cbn [option_map failed fst app].
  rewrite get_update_user_other by discriminate. eexists. reflexivity.
Qed.

Lemma profile_update_notifies_stored_email_witness :
  exists doc,
    trace Written (profile_update Sample.rename) Sample.files
    = [ ReadStarted USER_DATA_PATH; WriteStarted USER_DATA_PATH doc;
        WriteSettled USER_DATA_PATH Written;
        Emitted "profileUpdated" (VString "ann@x.com");
        Responded 200 (VString "Profile updated successfully.") ].
Proof.
  apply (profile_update_notifies_stored_email Sample.rename Sample.files [Sample.ann]
           Sample.ann eq_refl eq_refl).
Defined.

(** X14.  PUT /profile-update notifies exactly when it answers 200, and
    it does so only after a write that went through: a failed write, an
    unknown caller or an unreadable file never sends mail. *)
Theorem profile_update_notifies_iff_200
    (o : write_outcome) (req : Express.request) (d : disk) :
  ((exists name arg, In (Emitted name arg) (trace o (profile_update req) d))
   <-> In 200 (List.map fst (responses (trace o (profile_update req) d))))
  /\ ((exists name arg, In (Emitted name arg) (trace o (profile_update req) d)) ->
      o = Written).
Proof.
  unfold trace, profile_update. split; [split|].
  - handler_cases; cbn; intros [name [arg H]]; intuition discriminate.
  - handler_cases; cbn; intros H; try (intuition lia).
    do 2 eexists. do 3 right. left. reflexivity.
  - handler_cases; cbn; intros [name [arg H]]; try (intuition discriminate);
      destruct o; try reflexivity; discriminate.
Qed.

Lemma set_keys (r : record) (k x : string) (v : value) :
  In x (List.map fst (set r k v)) -> x = k \/ In x (List.map fst r).
Proof.
  induction r as [|[k' y] rest IH]; cbn [set List.map fst In].
  - intros [<- | []]. left. reflexivity.
  - destruct (String.eqb k' k); cbn [List.map fst In]; [auto|].
    intros [<- | H]; [auto|]. destruct (IH H); auto.
Qed.

Lemma set_well_formed (r : record) (k : string) (v : value) :
  well_formed r -> well_formed (set r k v).
Proof.
  unfold well_formed.
  induction r as [|[k' y] rest IH]; cbn [set List.map fst]; intros H.
  - repeat constructor. intros [].
  - destruct (String.eqb k' k) eqn:Hk; cbn [List.map fst]; [exact H|].
    inversion H as [|? ? Hnotin Hrest]; subst. constructor; [|apply IH; exact Hrest].
    intros Hin. apply set_keys in Hin. destruct Hin as [-> | Hin]; [|contradiction].
    rewrite String.eqb_refl in Hk. discriminate.
Qed.

(** X15.  PUT /profile-update writes back as many records as it read, in
    the same order, and a record whose id is not the caller's is written
    back as JSON prints it: none is added, dropped, moved or edited. *)
Theorem profile_update_leaves_other_users_alone
    (req : Express.request) (d : disk) (users : list record) :
  read d USER_DATA_PATH = Readable (Collection users) ->
  exists saved,
    read (disk_after Written (profile_update req) d) USER_DATA_PATH
    = Readable (Collection saved)
    /\ Forall2
         (fun u u' =>
            strict_eq (get u "id") (Express.id req) = false -> u' = record_to_json u)
         users saved.
Proof.
  intros Hread. unfold disk_after.
  rewrite (profile_update_exec Written req d users Hread). cbv zeta.
  cbn [snd commit]. eexists. split; [apply read_store|].
  unfold JSON_stringify. clear Hread.
  induction users as [|u users IH]; cbn [List.map]; constructor; [|exact IH].
  intros Hne. unfold update_user. rewrite Hne. reflexivity.
Qed.

Lemma profile_update_leaves_other_users_alone_witness :
  exists saved,
    read (disk_after Written (profile_update Sample.stranger) Sample.files) USER_DATA_PATH
    = Readable (Collection saved)
    /\ Forall2
         (fun u u' =>
            strict_eq (get u "id") (Express.id Sample.stranger) = false ->
            u' = record_to_json u)
         [Sample.ann] saved.
Proof.
  apply (profile_update_leaves_other_users_alone Sample.stranger Sample.files [Sample.ann]
           eq_refl).
Defined.

(** X16.  PUT /profile-update renames every record that has the caller's
    id, not only the first: in each of them, as saved, firstName and
    lastName are those of the body and every other property is the one
    that was stored.  (The objects of the file have no repeated
    property.) *)
Theorem profile_update_renames_every_match
    (req : Express.request) (d : disk) (users : list record) :
  read d USER_DATA_PATH = Readable (Collection users) ->
  Forall well_formed users ->
  exists saved,
    read (disk_after Written (profile_update req) d) USER_DATA_PATH
    = Readable (Collection saved)
    /\ Forall2
         (fun u u' =>
            strict_eq (get u "id") (Express.id req) = true ->
            get u' "firstName" = to_json (get (Express.body req) "firstName")
            /\ get u' "lastName" = to_json (get (Express.body req) "lastName")
            /\ forall k, k <> "firstName" -> k <> "lastName" ->
                 get u' k = to_json (get u k))
         users saved.
Proof.
  intros Hread Hwf. unfold disk_after.
  rewrite (profile_update_exec Written req d users Hread). cbv zeta.
  cbn [snd commit]. eexists. split; [apply read_store|].
  unfold JSON_stringify. clear Hread.
  induction Hwf as [|u users Hu _ IH]; cbn [List.map]; constructor; [|exact IH].
  intros Heq. unfold update_user. rewrite Heq.
  assert (Hset : well_formed (set (set u "firstName" (get (Express.body req) "firstName"))
                                "lastName" (get (Express.body req) "lastName")))
    by (apply set_well_formed, set_well_formed; exact Hu).
  repeat split.
  - rewrite (get_record_to_json _ _ Hset).
    rewrite get_set_other by discriminate. rewrite get_set_same. reflexivity.
  - rewrite (get_record_to_json _ _ Hset). rewrite get_set_same. reflexivity.
  - intros k Hf Hl. rewrite (get_record_to_json _ _ Hset).
    rewrite get_set_other by congruence. rewrite get_set_other by congruence.
    reflexivity.
Qed.

Lemma profile_update_renames_every_match_witness :
  exists saved,
    read (disk_after Written (profile_update Sample.rename) Sample.files) USER_DATA_PATH
    = Readable (Collection saved)
    /\ Forall2
         (fun u u' =>
            strict_eq (get u "id") (Express.id Sample.rename) = true ->
            get u' "firstName" = to_json (get (Express.body Sample.rename) "firstName")
            /\ get u' "lastName" = to_json (get (Express.body Sample.rename) "lastName")
            /\ forall k, k <> "firstName" -> k <> "lastName" ->
                 get u' k = to_json (get u k))
         [Sample.ann] saved.
Proof.
  apply (profile_update_renames_every_match Sample.rename Sample.files [Sample.ann]
           eq_refl).
  repeat constructor; cbn; intuition discriminate.
Defined.

(** X17.  GET /post always answers, once, with 200 or 500.  It answers
    200 exactly when both files hold a collection and the projection
    goes through, that is, when the caller has no post or both names of
    the caller's user record print; a file that does not load and a name
    that does not print are both answered 500.  It loads the posts first
    and looks at the users file only when that went well. *)
Theorem get_post_answers_200_or_500
    (E : engine) (o : write_outcome) (req : Express.request) (d : disk) :
  (exists status body,
      responses (trace o (get_post E req) d) = [(status, body)]
      /\ (status = 200 \/ status = 500)
      /\ (status = 200 <->
          exists posts users,
            read d POST_DATA_PATH = Readable (Collection posts)
            /\ read d USER_DATA_PATH = Readable (Collection users)
            /\ let author :=
                 List.find (fun user => strict_eq (get user "id") (Express.userId req))
                   users in
               (List.filter (fun post => strict_eq (get post "userId") (Express.userId req))
                  posts = []
                \/ exists firstName lastName,
                     to_string E (optional_get author "firstName") = Some firstName
                     /\ to_string E (optional_get author "lastName") = Some lastName)))
  /\ (In (ReadStarted USER_DATA_PATH) (trace o (get_post E req) d) <->
      exists posts, read d POST_DATA_PATH = Readable (Collection posts)).
Proof.
  destruct (read d POST_DATA_PATH) as [err | [message | posts]] eqn:Hposts.
  - unfold trace, get_post. cbn [exec]. unfold readDataFromFile. rewrite Hposts.
    cbn [exec fst responses]. split.
    + do 2 eexists. split; [reflexivity|]. split; [right; reflexivity|].
      split; [discriminate|]. intros [ps [us [H _]]]. discriminate.
    + split; [cbn; intuition discriminate|]. intros [ps H]. discriminate.
  - unfold trace, get_post. cbn [exec]. unfold readDataFromFile. rewrite Hposts.
    cbn [exec fst responses]. split.
    + do 2 eexists. split; [reflexivity|]. split; [right; reflexivity|].
      split; [discriminate|]. intros [ps [us [H _]]]. discriminate.
    + split; [cbn; intuition discriminate|]. intros [ps H]. discriminate.
  - destruct (read d USER_DATA_PATH) as [err | [message | users]] eqn:Husers.
    + unfold trace, get_post. cbn [exec]. unfold readDataFromFile. rewrite Hposts.
      cbn [exec]. rewrite Husers. cbn [exec fst responses]. split.
      * do 2 eexists. split; [reflexivity|]. split; [right; reflexivity|].
        split; [discriminate|]. intros [ps [us [_ [H _]]]]. discriminate.
      * split; [intros _; exists posts; reflexivity | intros _; cbn; auto].
    + unfold trace, get_post. cbn [exec]. unfold readDataFromFile. rewrite Hposts.
      cbn [exec]. rewrite Husers. cbn [exec fst responses]. split.
      * do 2 eexists. split; [reflexivity|]. split; [right; reflexivity|].
        split; [discriminate|]. intros [ps [us [_ [H _]]]]. discriminate.
      * split; [intros _; exists posts; reflexivity | intros _; cbn; auto].
    + unfold trace. rewrite (get_post_exec E o req d posts users Hposts Husers).
      cbn [fst]. rewrite projection_cases. split.
      2:{ split; [intros _; exists posts; reflexivity | intros _; cbn; auto]. }
      set (author := List.find (fun user => strict_eq (get user "id") (Express.userId req))
                       users).
      set (owned := List.filter
                      (fun post => strict_eq (get post "userId") (Express.userId req))
                      posts).
      assert (Hyes : forall body,
                exists status b,
                  responses [ReadStarted POST_DATA_PATH; ReadStarted USER_DATA_PATH;
                             Responded 200 body] = [(status, b)]
                  /\ (status = 200 \/ status = 500)
                  /\ (status = 200 <-> True)).
      { intros body. exists 200, body. repeat split; auto. }
      destruct (to_string E (optional_get author "firstName")) as [f|] eqn:Hf;
        [destruct (to_string E (optional_get author "lastName")) as [l|] eqn:Hl|].
      * destruct (Hyes (VArray (List.map VObject
                  (List.map (fun post =>
                     [ ("title", get post "title"); ("description", get post "description");
                       ("date", get post "date");
                       ("authorName", VString (f ++ " " ++ l)) ]) owned))))
          as [status [b [Hr [Hs Hiff]]]].
        exists status, b. split; [exact Hr|]. split; [exact Hs|].
        rewrite Hiff. split; [|auto]. intros _. exists posts, users.
        split; [reflexivity|]. split; [reflexivity|]. cbv zeta. fold author.
        right. exists f, l. rewrite Hf, Hl. split; reflexivity.
      * destruct owned as [|post owned'] eqn:Howned.
        -- destruct (Hyes (VArray (List.map VObject []))) as [status [b [Hr [Hs Hiff]]]].
           exists status, b. split; [exact Hr|]. split; [exact Hs|].
           rewrite Hiff. split; [|auto]. intros _. exists posts, users.
           split; [reflexivity|]. split; [reflexivity|]. cbv zeta. left. exact Howned.
        -- do 2 eexists. split; [reflexivity|]. split; [right; reflexivity|].
           split; [discriminate|]. intros [ps [us [Hp [Hu Hor]]]].
           injection Hp as <-. injection Hu as <-. cbv zeta in Hor.
           fold author owned in Hor. rewrite Howned, Hf, Hl in Hor.
           destruct Hor as [H | [f' [l' [_ H]]]]; discriminate.
      * destruct owned as [|post owned'] eqn:Howned.
        -- destruct (Hyes (VArray (List.map VObject []))) as [status [b [Hr [Hs Hiff]]]].
           exists status, b. split; [exact Hr|]. split; [exact Hs|].
           rewrite Hiff. split; [|auto]. intros _. exists posts, users.
           split; [reflexivity|]. split; [reflexivity|]. cbv zeta. left. exact Howned.
        -- do 2 eexists. split; [reflexivity|]. split; [right; reflexivity|].
           split; [discriminate|]. intros [ps [us [Hp [Hu Hor]]]].
           injection Hp as <-. injection Hu as <-. cbv zeta in Hor.
           fold author owned in Hor. rewrite Howned, Hf in Hor.
           destruct Hor as [H | [f' [l' [H _]]]]; discriminate.
Qed.

(** X18.  For a caller whose user record carries string names, GET /post
    lists the caller's posts and no others, in file order; each entry
    holds the title, description and date of its post and, as
    authorName, the first and the last name with a space between; it
    reveals neither an id nor a userId. *)
Theorem get_post_lists_the_callers_posts
    (E : engine) (o : write_outcome) (req : Express.request) (d : disk)
    (posts users : list record) (user : record) (firstName lastName : string) :
  read d POST_DATA_PATH = Readable (Collection posts) ->
  read d USER_DATA_PATH = Readable (Collection users) ->
  List.find (fun u => strict_eq (get u "id") (Express.userId req)) users = Some user ->
  get user "firstName" = VString firstName ->
  get user "lastName" = VString lastName ->
  responses (trace o (get_post E req) d) =
    [(200,
      VArray
        (List.map
           (fun post =>
              VObject [ ("title", get post "title");
                        ("description", get post "description");
                        ("date", get post "date");
                        ("authorName", VString (firstName ++ " " ++ lastName)) ])
           (List.filter (fun post => strict_eq (get post "userId") (Express.userId req))
              posts)))].
Proof.
  intros Hposts Husers Hfind Hfirst Hlast. unfold trace.
  rewrite (get_post_exec E o req d posts users Hposts Husers), Hfind.
  rewrite projection_cases. cbn [optional_get]. rewrite Hfirst, Hlast.
  cbn [to_string fst responses]. rewrite map_map. reflexivity.
Qed.

Lemma get_post_lists_the_callers_posts_witness :
  responses (trace Written (get_post Sample.engine Sample.delete_p1) Sample.files) =
    [(200,
      VArray
        [VObject [ ("title", VString "Hello");
                   ("description", VString "a valid description");
                   ("date", VString "2024-10-31T09:00:00.000Z");
                   ("authorName", VString "Ann Lee") ]])].
Proof.
  apply (get_post_lists_the_callers_posts Sample.engine Written Sample.delete_p1
           Sample.files Sample.posts [Sample.ann] Sample.ann "Ann" "Lee"
           eq_refl eq_refl eq_refl eq_refl eq_refl).
Defined.

(* ================================================================== *)
(** * POST /login *)
(* ================================================================== *)

Lemma login_exec (K : crypto) (o : write_outcome) (req : Express.request) (d : disk)
    (users : list record) :
  truthy (get (Express.body req) "email") = true ->
  truthy (get (Express.body req) "password") = true ->
  read d USER_DATA_PATH = Readable (Collection users) ->
  exec o (login K req) d =
    (ReadStarted USER_DATA_PATH ::
       match find_or_throw
               (credentials_match K (get (Express.body req) "email")
                  (get (Express.body req) "password")) users with
       | None => [Uncaught]
       | Some None => [Responded 400 (VString "Invalid credentials.")]
       | Some (Some user) =>
           match sign K [("id", get user "id")] with
           | None => [Uncaught]
           | Some token => [Responded 200 (VObject [("token", VString token)])]
           end
       end,
     d).
Proof.
  intros He Hp Hread. unfold login. rewrite He, Hp.
  cbn [negb orb exec app]. rewrite Hread. cbn [JSON_parse].
  destruct (find_or_throw _ users) as [[user|]|]; try reflexivity.
  destruct (sign K _); reflexivity.
Qed.

Lemma find_or_throw_skips (p : record -> option bool) (before rest : list record) :
  (forall u, In u before -> p u = Some false) ->
  find_or_throw p (before ++ rest) = find_or_throw p rest.
Proof.
  induction before as [|u before IH]; intros H; [reflexivity|].
  cbn [app find_or_throw]. rewrite (H u (or_introl eq_refl)).
  apply IH. intros v Hv. apply H. right. exact Hv.
Qed.

Lemma find_or_throw_nothing (p : record -> option bool) (l : list record) :
  find_or_throw p l = Some None <-> (forall u, In u l -> p u = Some false).
Proof.
  induction l as [|u l IH]; cbn [find_or_throw].
  - split; [intros _ v [] | reflexivity].
  - destruct (p u) as [[|]|] eqn:Hu.
    + split; [discriminate|]. intros H. specialize (H u (or_introl eq_refl)). congruence.
    + rewrite IH. split.
      * intros H v [<- | Hv]; [exact Hu | apply H; exact Hv].
      * intros H v Hv. apply H. right. exact Hv.
    + split; [discriminate|]. intros H. specialize (H u (or_introl eq_refl)). congruence.
Qed.

Lemma find_or_throw_ext (p q : record -> option bool) (l : list record) :
  (forall u, In u l -> p u = q u) -> find_or_throw p l = find_or_throw q l.
Proof.
  induction l as [|u l IH]; intros H; [reflexivity|].
  cbn [find_or_throw]. rewrite <- (H u (or_introl eq_refl)).
  rewrite IH; [reflexivity|]. intros v Hv. apply H. right. exact Hv.
Qed.

(** X19.  POST /login answers "All input is required." exactly when the
    email or the password of the body is missing or empty, and then it
    has read nothing. *)
Theorem login_requires_both_fields
    (K : crypto) (o : write_outcome) (req : Express.request) (d : disk) :
  (responses (trace o (login K req) d) = [(400, VString "All input is required.")]
   <-> truthy (get (Express.body req) "email") = false
       \/ truthy (get (Express.body req) "password") = false)
  /\ (truthy (get (Express.body req) "email") = false
      \/ truthy (get (Express.body req) "password") = false ->
      exec o (login K req) d = ([Responded 400 (VString "All input is required.")], d)).
Proof.
  unfold trace, login.
  destruct (truthy (get (Express.body req) "email")) eqn:He;
    destruct (truthy (get (Express.body req) "password")) eqn:Hp;
    cbn [negb orb]; try (split; [split|]; auto; fail).
  split; [split|]; [|intuition discriminate|intuition discriminate].
  handler_cases; cbn; discriminate.
Qed.

(** X20.  POST /login goes by the first record that has the email of the
    body and passes the password check: the token it sends signs the id
    of that record and nothing else, whatever records follow. *)
Theorem login_signs_the_id_of_the_first_match
    (K : crypto) (o : write_outcome) (req : Express.request) (d : disk)
    (before after : list record) (user : record) (token : string) :
  let email := get (Express.body req) "email" in
  let password := get (Express.body req) "password" in
  truthy email = true -> truthy password = true ->
  read d USER_DATA_PATH = Readable (Collection (before ++ user :: after)) ->
  (forall u, In u before -> credentials_match K email password u = Some false) ->
  strict_eq (get user "email") email = true ->
  compareSync K password (get user "password") = Some true ->
  sign K [("id", get user "id")] = Some token ->
  responses (trace o (login K req) d) = [(200, VObject [("token", VString token)])].
Proof.
  intros email password He Hp Hread Hbefore Hemail Hcompare Hsign. unfold trace.
  rewrite (login_exec K o req d _ He Hp Hread).
  fold email password. rewrite (find_or_throw_skips _ before _ Hbefore).
  cbn [find_or_throw]. unfold credentials_match at 1. rewrite Hemail, Hcompare, Hsign.
  reflexivity.
Qed.

Lemma login_signs_the_id_of_the_first_match_witness :
  responses (trace Written (login Accounts.toy (Accounts.attempt "bob@x.com" "hunter2"))
               Accounts.files)
  = [(200, VObject [("token", VString "jwt.u2")])].
Proof.
  apply (login_signs_the_id_of_the_first_match Accounts.toy Written
           (Accounts.attempt "bob@x.com" "hunter2") Accounts.files
           [Accounts.ann] [] Accounts.bob "jwt.u2" eq_refl eq_refl eq_refl).
  - intros u [<- | []]. reflexivity.
  - reflexivity.
  - reflexivity.
  - reflexivity.
Defined.

(** X21.  POST /login answers "Invalid credentials." exactly when every
    record either has another email or fails the password check: an
    unknown email and a wrong password get the same response. *)
Theorem login_invalid_credentials_iff_no_match
    (K : crypto) (o : write_outcome) (req : Express.request) (d : disk)
    (users : list record) :
  let email := get (Express.body req) "email" in
  let password := get (Express.body req) "password" in
  truthy email = true -> truthy password = true ->
  read d USER_DATA_PATH = Readable (Collection users) ->
  (responses (trace o (login K req) d) = [(400, VString "Invalid credentials.")]
   <->
   forall u, In u users ->
     strict_eq (get u "email") email = false
     \/ compareSync K password (get u "password") = Some false).
Proof.
  intros email password He Hp Hread. unfold trace.
  rewrite (login_exec K o req d users He Hp Hread). fold email password.
  assert (Hiff : (forall u, In u users -> credentials_match K email password u = Some false)
                 <-> (forall u, In u users ->
                        strict_eq (get u "email") email = false
                        \/ compareSync K password (get u "password") = Some false)).
  { split; intros H u Hu; specialize (H u Hu); unfold credentials_match in *;
      destruct (strict_eq (get u "email") email); auto.
    destruct H as [H | H]; [discriminate | exact H]. }
  rewrite <- Hiff, <- find_or_throw_nothing.
  destruct (find_or_throw _ users) as [[user|]|]; cbn [fst responses].
  - destruct (sign K _); cbn; split; discriminate.
  - split; reflexivity.
  - split; discriminate.
Qed.

Lemma login_invalid_credentials_iff_no_match_witness :
  responses (trace Written (login Accounts.toy (Accounts.attempt "ann@x.com" "guess"))
               Accounts.files)
  = [(400, VString "Invalid credentials.")]
  /\ responses (trace Written (login Accounts.toy (Accounts.attempt "eve@x.com" "guess"))
                  Accounts.files)
     = [(400, VString "Invalid credentials.")].
Proof.
  split.
  - apply (login_invalid_credentials_iff_no_match Accounts.toy Written
             (Accounts.attempt "ann@x.com" "guess") Accounts.files
             [Accounts.ann; Accounts.bob] eq_refl eq_refl eq_refl).
    intros u [<- | [<- | []]]; [right | left]; reflexivity.
  - apply (login_invalid_credentials_iff_no_match Accounts.toy Written
             (Accounts.attempt "eve@x.com" "guess") Accounts.files
             [Accounts.ann; Accounts.bob] eq_refl eq_refl eq_refl).
    intros u [<- | [<- | []]]; left; reflexivity.
Defined.

(** X22.  POST /login checks the password against the hashes of the
    records that have the email of the body, and against no other: two
    password libraries that agree on those records (and sign alike) give
    the same run. *)
Theorem login_compares_only_matching_emails
    (K K' : crypto) (o : write_outcome) (req : Express.request) (d : disk) :
  (forall users u,
      read d USER_DATA_PATH = Readable (Collection users) -> In u users ->
      strict_eq (get u "email") (get (Express.body req) "email") = true ->
      compareSync K (get (Express.body req) "password") (get u "password")
      = compareSync K' (get (Express.body req) "password") (get u "password")) ->
  (forall payload, sign K payload = sign K' payload) ->
  exec o (login K req) d = exec o (login K' req) d.
Proof.
  intros Hcompare Hsign. unfold login.
  destruct (negb (truthy (get (Express.body req) "email"))
            || negb (truthy (get (Express.body req) "password"))); [reflexivity|].
  cbn [exec app]. destruct (read d USER_DATA_PATH) as [err | [message | users]] eqn:Hread;
    try reflexivity.
  cbn [JSON_parse].
  rewrite (find_or_throw_ext
             (credentials_match K (get (Express.body req) "email")
                (get (Express.body req) "password"))
             (credentials_match K' (get (Express.body req) "email")
                (get (Express.body req) "password")) users).
  - destruct (find_or_throw _ users) as [[user|]|]; try reflexivity.
    rewrite Hsign. reflexivity.
  - intros u Hu. unfold credentials_match.
    destruct (strict_eq (get u "email") (get (Express.body req) "email")) eqn:He;
      [|reflexivity].
    apply (Hcompare users u eq_refl Hu He).
Qed.

(** X23.  When the password check throws on the first record that has
    the email of the body (bcrypt does on a password or a hash that is
    not a string), nothing catches it: the request gets no response. *)
Theorem login_unanswered_when_compare_throws
    (K : crypto) (o : write_outcome) (req : Express.request) (d : disk)
    (before after : list record) (user : record) :
  let email := get (Express.body req) "email" in
  let password := get (Express.body req) "password" in
  truthy email = true -> truthy password = true ->
  read d USER_DATA_PATH = Readable (Collection (before ++ user :: after)) ->
  (forall u, In u before -> credentials_match K email password u = Some false) ->
  strict_eq (get user "email") email = true ->
  compareSync K password (get user "password") = None ->
  trace o (login K req) d = [ReadStarted USER_DATA_PATH; Uncaught].
Proof.
  intros email password He Hp Hread Hbefore Hemail Hcompare. unfold trace.
  rewrite (login_exec K o req d _ He Hp Hread).
  fold email password. rewrite (find_or_throw_skips _ before _ Hbefore).
  cbn [find_or_throw]. unfold credentials_match at 1. rewrite Hemail, Hcompare.
  reflexivity.
Qed.

Lemma login_unanswered_when_compare_throws_witness :
  trace Written
    (login Accounts.toy
       (Sample.request [] [("email", VString "ann@x.com"); ("password", VNumber 12345)]
          VUndefined))
    Accounts.files
  = [ReadStarted USER_DATA_PATH; Uncaught].
Proof.
  apply (login_unanswered_when_compare_throws Accounts.toy Written
           (Sample.request [] [("email", VString "ann@x.com"); ("password", VNumber 12345)]
              VUndefined)
           Accounts.files [] [Accounts.bob] Accounts.ann eq_refl eq_refl eq_refl).
  - intros u [].
  - reflexivity.
  - reflexivity.
Defined.

(* ================================================================== *)
(** * The review and vinyl services *)
(* ================================================================== *)

(** Splits on the answer to the call the method is waiting for. *)
Ltac case_answer :=
  match goal with
  | |- context [match ?ora ?h ?c with Nest.Fulfilled _ => _ | Nest.Rejected _ => _ end] =>
      destruct (ora h c)
  end.

Section ServiceProperties.
Import Nest.
Variable E : engine.

(** X24.  [deleteReviews] deletes only what it has found: the one call
    it can make that changes anything is the deletion of the review with
    the id it looked up, and it makes it only after the lookup resolved
    to a review.  It returns "Review deleted" exactly when the lookup
    found a review and the deletion resolved, and throws 404 exactly
    when the lookup resolved to nothing. *)
Theorem deleteReviews_deletes_only_what_it_found (ora : oracle) (id : string) :
  let lookup := review_findUnique (where_id (Number E id)) in
  let deletion := review_delete (where_id (Number E id)) in
  (forall c, In c (calls ora (deleteReviews E id)) -> mutates c = true ->
     c = deletion
     /\ exists review, ora [] lookup = Fulfilled review /\ truthy review = true)
  /\ (outcome ora (deleteReviews E id) = Returned (VString "Review deleted") <->
      exists review v,
        ora [] lookup = Fulfilled review /\ truthy review = true
        /\ ora [lookup] deletion = Fulfilled v)
  /\ (outcome ora (deleteReviews E id) = HttpException "Review not found" 404 <->
      exists review, ora [] lookup = Fulfilled review /\ truthy review = false).
Proof.
  cbv zeta. unfold calls, outcome, deleteReviews. cbn [run app].
  destruct (ora [] _) as [review | reason] eqn:Hlookup.
  - destruct (truthy review) eqn:Htruthy; cbn [negb run app].
    + assert (Hfound : exists r, Fulfilled review = Fulfilled r /\ truthy r = true)
        by (exists review; split; [reflexivity | exact Htruthy]).
      destruct (ora [_] _) as [v | reason] eqn:Hdelete; cbn [fst snd].
      * split; [|split].
        -- intros c [<- | [<- | []]] Hm; [discriminate|]. split; [reflexivity | exact Hfound].
        -- split; [|reflexivity]. intros _. exists review, v. repeat split. exact Htruthy.
        -- split; [discriminate|]. intros [r [Hr Hf]]. injection Hr as <-. congruence.
      * split; [|split].
        -- intros c [<- | [<- | []]] Hm; [discriminate|]. split; [reflexivity | exact Hfound].
        -- split; [discriminate|]. intros [r [v [_ [_ Hv]]]]. discriminate.
        -- split; [discriminate|]. intros [r [Hr Hf]]. injection Hr as <-. congruence.
    + cbn [fst snd]. split; [|split].
      * intros c [<- | []] Hm. discriminate.
      * split; [discriminate|]. intros [r [v [Hr [Ht _]]]]. injection Hr as <-. congruence.
      * split; [|reflexivity]. intros _. exists review. split; [reflexivity | exact Htruthy].
  - cbn [fst snd]. split; [|split].
    + intros c [<- | []] Hm. discriminate.
    + split; [discriminate|]. intros [r [v [Hr _]]]. discriminate.
    + split; [discriminate|]. intros [r [Hr _]]. discriminate.
Qed.

(** X25.  [createReviews] attaches the review to the vinyl of the route
    and to the caller, whatever the body says: in the data it hands to
    the database, [vinyl] and [user] are the two connections, also when
    the body carries properties of these names, and every other property
    of the body goes through as it is.  It makes no other call. *)
Theorem createReviews_connects_route_and_caller
    (ora : oracle) (vinylId : string) (userId : float) (data : record) :
  exists sent,
    calls ora (createReviews E vinylId userId data)
    = [review_create (VObject [("data", VObject sent)])]
    /\ get sent "vinyl" = connect (Number E vinylId)
    /\ get sent "user" = connect userId
    /\ forall k, k <> "vinyl" -> k <> "user" -> get sent k = get data k.
Proof.
  eexists. split; [|split; [|split]].
  - unfold calls, createReviews. cbn [run app].
    case_answer; [|reflexivity].
    match goal with |- context [negb ?b] => destruct (negb b) end; reflexivity.
  - rewrite get_set_other by discriminate. apply get_set_same.
  - apply get_set_same.
  - intros k Hv Hu. rewrite get_set_other by congruence.
    rewrite get_set_other by congruence. reflexivity.
Qed.

(** X26.  A lookup that finds nothing ends the method with 404 and
    nothing else has been called: [getVinyl], [updateVinyl],
    [deleteVinyl] and [deleteReviews] change nothing for an id that does
    not exist. *)
Theorem not_found_changes_nothing
    (ora : oracle) (id : float) (rid : string) (dto : record) (coverImage missing : value) :
  truthy missing = false ->
  (ora [] (vinyl_findUnique
             (VObject [("where", VObject [("id", VNumber id)]);
                       ("include", VObject [("reviews", VBool true)])]))
   = Fulfilled missing ->
   run ora [] (getVinyl id)
   = ([vinyl_findUnique
         (VObject [("where", VObject [("id", VNumber id)]);
                   ("include", VObject [("reviews", VBool true)])])],
      HttpException "Vinyl not found" 404))
  /\
  (ora [] (vinyl_findUnique (where_id id)) = Fulfilled missing ->
   run ora [] (updateVinyl id dto coverImage)
   = ([vinyl_findUnique (where_id id)], HttpException "Vinyl not found" 404)
   /\ run ora [] (deleteVinyl id)
      = ([vinyl_findUnique (where_id id)], HttpException "Vinyl not found" 404))
  /\
  (ora [] (review_findUnique (where_id (Number E rid))) = Fulfilled missing ->
   run ora [] (deleteReviews E rid)
   = ([review_findUnique (where_id (Number E rid))],
      HttpException "Review not found" 404)).
Proof.
  intros Hmissing. split; [|split]; intros Hlookup.
  - unfold getVinyl. cbn [run app]. rewrite Hlookup, Hmissing. reflexivity.
  - split.
    + unfold updateVinyl. cbn [run app]. rewrite Hlookup, Hmissing. reflexivity.
    + unfold deleteVinyl. cbn [run app]. rewrite Hlookup, Hmissing. reflexivity.
  - unfold deleteReviews. cbn [run app]. rewrite Hlookup, Hmissing. reflexivity.
Qed.

(** X27.  [updateVinyl] without a cover image never calls the object
    store and sends the stored image address back; of name, authorName,
    description and price it sends the value of the body when the body
    has one, the empty string and 0 included, and the stored value when
    the body has none or has [null]. *)
Theorem updateVinyl_keeps_what_the_body_omits
    (ora : oracle) (id : float) (dto : record) (coverImage vinyl : value) :
  ora [] (vinyl_findUnique (where_id id)) = Fulfilled vinyl ->
  truthy vinyl = true ->
  truthy coverImage = false ->
  exists sent,
    calls ora (updateVinyl id dto coverImage)
    = [ vinyl_findUnique (where_id id);
        vinyl_update (VObject [("where", VObject [("id", VNumber id)]);
                               ("data", VObject sent)]) ]
    /\ get sent "image" = member vinyl "image"
    /\ forall k, In k ["name"; "authorName"; "description"; "price"] ->
         (get dto k = VUndefined \/ get dto k = VNull -> get sent k = member vinyl k)
         /\ (get dto k <> VUndefined -> get dto k <> VNull -> get sent k = get dto k).
Proof.
  intros Hlookup Hvinyl Hcover. eexists. split; [|split].
  - unfold calls, updateVinyl. cbn [run app]. rewrite Hlookup, Hvinyl, Hcover.
    cbn [negb run app]. unfold update_args.
    case_answer; [|reflexivity].
    match goal with |- context [negb ?b] => destruct (negb b) end; reflexivity.
  - reflexivity.
  - intros k [<- | [<- | [<- | [<- | []]]]]; cbn [get String.eqb Ascii.eqb Bool.eqb];
      (split; [intros [-> | ->]; reflexivity
              | intros Hu Hn; destruct (get dto _); try reflexivity; congruence]).
Qed.

(** X28.  [updateVinyl] with a cover image deletes the stored image,
    then uploads the new one, then updates the row with the address the
    upload gave.  When the upload fails, the stored image is already
    deleted and the row is not updated: it keeps the address of a file
    that is gone. *)
Theorem updateVinyl_replaces_the_image
    (ora : oracle) (id : float) (dto : record) (coverImage vinyl gone : value) :
  ora [] (vinyl_findUnique (where_id id)) = Fulfilled vinyl ->
  truthy vinyl = true ->
  truthy coverImage = true ->
  let lookup := vinyl_findUnique (where_id id) in
  let removal := s3_deleteFile (member vinyl "image") in
  let upload := s3_uploadFile coverImage in
  ora [lookup] removal = Fulfilled gone ->
  (forall url, ora [lookup; removal] upload = Fulfilled url ->
     calls ora (updateVinyl id dto coverImage)
     = [lookup; removal; upload; vinyl_update (update_args id dto vinyl url)])
  /\ (forall reason, ora [lookup; removal] upload = Rejected reason ->
     run ora [] (updateVinyl id dto coverImage)
     = ([lookup; removal; upload], Failed reason)).
Proof.
  intros Hlookup Hvinyl Hcover lookup removal upload Hremoval.
  subst lookup removal upload. split.
  - intros url Hupload. unfold calls, updateVinyl. cbn [run app].
    rewrite Hlookup, Hvinyl, Hcover. cbn [negb run app].
    rewrite Hremoval. cbn [run app]. rewrite Hupload.
    cbn [run app]. case_answer; [|reflexivity].
    match goal with |- context [negb ?b] => destruct (negb b) end; reflexivity.
  - intros reason Hupload. unfold updateVinyl. cbn [run app].
    rewrite Hlookup, Hvinyl, Hcover. cbn [negb run app].
    rewrite Hremoval. cbn [run app]. rewrite Hupload.
    reflexivity.
Qed.

(** X29.  [deleteVinyl] deletes the image before the row, and the row
    only when the image is gone: whatever the database and the object
    store answer, the calls it makes are the lookup, then possibly the
    deletion of the stored image, then possibly the deletion of the row,
    and the row is deleted only if the deletion of the image resolved. *)
Theorem deleteVinyl_deletes_image_then_row (ora : oracle) (id : float) :
  let lookup := vinyl_findUnique (where_id id) in
  (calls ora (deleteVinyl id) = [lookup]
   \/ exists vinyl,
        ora [] lookup = Fulfilled vinyl /\ truthy vinyl = true
        /\ (calls ora (deleteVinyl id) = [lookup; s3_deleteFile (member vinyl "image")]
            \/ calls ora (deleteVinyl id)
               = [lookup; s3_deleteFile (member vinyl "image"); vinyl_delete (where_id id)]
               /\ exists v,
                    ora [lookup] (s3_deleteFile (member vinyl "image")) = Fulfilled v)).
Proof.
  cbv zeta. unfold calls, deleteVinyl. cbn [run app].
  destruct (ora [] _) as [vinyl | reason] eqn:Hlookup; [|left; reflexivity].
  destruct (truthy vinyl) eqn:Hvinyl; cbn [negb run app]; [|left; reflexivity].
  right. exists vinyl. split; [reflexivity|]. split; [exact Hvinyl|].
  destruct (ora [_] _) as [v | reason] eqn:Hremoval; cbn [run app fst].
  - right. split; [|exists v; reflexivity].
    case_answer; reflexivity.
  - left. reflexivity.
Qed.

(** X30.  [createVinyl] asks for the cover image before it calls
    anything.  With one, it uploads first and creates the row with the
    address the upload gave.  It deletes the uploaded file again when the
    creation resolves to nothing, but not when the creation is rejected:
    then the uploaded file stays, with no row that points to it. *)
Theorem createVinyl_uploads_then_creates
    (ora : oracle) (dto : record) (coverImage : value) :
  (truthy coverImage = false ->
   run ora [] (createVinyl dto coverImage)
   = ([], HttpException "Cover image is required" 400))
  /\
  (truthy coverImage = true ->
   forall url, ora [] (s3_uploadFile coverImage) = Fulfilled url ->
   let upload := s3_uploadFile coverImage in
   let creation :=
     vinyl_create
       (VObject
          [("data",
            VObject [("name", get dto "name"); ("authorName", get dto "authorName");
                     ("description", get dto "description"); ("price", get dto "price");
                     ("image", url)])]) in
   (forall nothing, ora [upload] creation = Fulfilled nothing -> truthy nothing = false ->
      calls ora (createVinyl dto coverImage) = [upload; creation; s3_deleteFile url])
   /\ (forall reason, ora [upload] creation = Rejected reason ->
      run ora [] (createVinyl dto coverImage) = ([upload; creation], Failed reason))
   /\ (forall vinyl, ora [upload] creation = Fulfilled vinyl -> truthy vinyl = true ->
      run ora [] (createVinyl dto coverImage) = ([upload; creation], Returned vinyl))).
Proof.
  split.
  - intros Hcover. unfold createVinyl. rewrite Hcover. reflexivity.
  - intros Hcover url Hupload upload creation. subst upload creation. split; [|split].
    + intros nothing Hcreate Hnothing. unfold calls, createVinyl. rewrite Hcover.
      cbn [negb run app]. rewrite Hupload. cbn [run app].
      rewrite Hcreate, Hnothing. cbn [negb run app].
      case_answer; reflexivity.
    + intros reason Hcreate. unfold createVinyl. rewrite Hcover.
      cbn [negb run app]. rewrite Hupload. cbn [run app].
      rewrite Hcreate. reflexivity.
    + intros vinyl Hcreate Hvinyl. unfold createVinyl. rewrite Hcover.
      cbn [negb run app]. rewrite Hupload. cbn [run app].
      rewrite Hcreate, Hvinyl. reflexivity.
Qed.

End ServiceProperties.

Lemma login_compares_only_matching_emails_witness :
  exec Written (login Accounts.toy (Accounts.attempt "ann@x.com" "secret")) Accounts.files
  = exec Written (login Accounts.picky (Accounts.attempt "ann@x.com" "secret"))
      Accounts.files.
Proof.
  apply (login_compares_only_matching_emails Accounts.toy Accounts.picky Written
           (Accounts.attempt "ann@x.com" "secret") Accounts.files).
  - intros users u Hread Hin Hemail. cbn in Hread. injection Hread as <-.
    destruct Hin as [<- | [<- | []]]; [reflexivity | discriminate].
  - reflexivity.
Defined.

Lemma not_found_changes_nothing_witness :
  Nest.run Shop.empty [] (Nest.deleteVinyl 7)
  = ([Nest.vinyl_findUnique (Nest.where_id 7)], Nest.HttpException "Vinyl not found" 404).
Proof.
  apply (proj1 (proj2 (not_found_changes_nothing Sample.engine Shop.empty 7 "7" []
                         VUndefined VNull eq_refl)) eq_refl).
Defined.

Lemma updateVinyl_keeps_what_the_body_omits_witness :
  exists sent,
    Nest.calls Shop.stocked (Nest.updateVinyl 7 [("name", VString "")] VUndefined)
    = [ Nest.vinyl_findUnique (Nest.where_id 7);
        Nest.vinyl_update (VObject [("where", VObject [("id", VNumber 7)]);
                                    ("data", VObject sent)]) ]
    /\ get sent "name" = VString ""
    /\ get sent "price" = VNumber 25
    /\ get sent "image" = VString "https://s3/kind-of-blue.jpg".
Proof.
  destruct (updateVinyl_keeps_what_the_body_omits Shop.stocked 7 [("name", VString "")]
              VUndefined Shop.vinyl eq_refl eq_refl eq_refl)
    as [sent [Hcalls [Himage Hfields]]].
  exists sent. split; [exact Hcalls|]. split; [|split].
  - apply (Hfields "name"); [left; reflexivity | discriminate | discriminate].
  - apply (Hfields "price"); [do 3 right; left; reflexivity | left; reflexivity].
  - exact Himage.
Defined.

Lemma updateVinyl_replaces_the_image_witness :
  Nest.run Shop.s3_half_down [] (Nest.updateVinyl 7 [] Shop.cover)
  = ([ Nest.vinyl_findUnique (Nest.where_id 7);
       Nest.s3_deleteFile (VString "https://s3/kind-of-blue.jpg");
       Nest.s3_uploadFile Shop.cover ],
     Nest.Failed (VString "S3 unavailable")).
Proof.
  apply (proj2 (updateVinyl_replaces_the_image Shop.s3_half_down 7 [] Shop.cover Shop.vinyl
                  VUndefined eq_refl eq_refl eq_refl eq_refl)
           (VString "S3 unavailable") eq_refl).
Defined.

Lemma createVinyl_uploads_then_creates_witness :
  Nest.run Shop.read_only [] (Nest.createVinyl [("name", VString "Blue Train")] Shop.cover)
  = ([ Nest.s3_uploadFile Shop.cover;
       Nest.vinyl_create
         (VObject
            [("data",
              VObject [("name", VString "Blue Train"); ("authorName", VUndefined);
                       ("description", VUndefined); ("price", VUndefined);
                       ("image", VString "https://s3/new.jpg")])]) ],
     Nest.Failed (VString "read-only transaction")).
Proof.
  apply (proj1 (proj2 (proj2 (createVinyl_uploads_then_creates Shop.read_only
                                [("name", VString "Blue Train")] Shop.cover)
                         eq_refl (VString "https://s3/new.jpg") eq_refl))
           (VString "read-only transaction") eq_refl).
Defined.

(* ================================================================== *)
(** * Values that do not print *)
(* ================================================================== *)

(** PUT /profile-update stores whatever the body holds: an object with
    its own [toString] becomes the first name of the caller. *)
Example unprintable_name_can_be_stored :
  disk_after Written (profile_update Odd.odd_rename) Sample.files = Odd.files.
Proof. reflexivity. Qed.

(** GET /post for that caller, who has a post, is then answered 500:
    the template literal throws inside the [try]. *)
Example unprintable_name_is_answered_500 :
  trace Written (get_post Sample.engine Sample.delete_p1) Odd.files
  = [ ReadStarted POST_DATA_PATH; ReadStarted USER_DATA_PATH;
      Responded 500
        (VString "An error occurred. Please try again later.TypeError: Cannot convert object to primitive value") ].
Proof. reflexivity. Qed.

(** A caller without posts is answered 200 all the same: there is
    nothing to print the name on. *)
Example unprintable_name_without_posts_is_answered_200 :
  responses
    (trace Written (get_post Sample.engine Sample.delete_p1)
       {| users_json := Readable (Collection [Odd.odd_ann]);
          posts_json := Readable (Collection []) |})
  = [(200, VArray [])].
Proof. reflexivity. Qed.
